(** * hwp_table_tools: the table adapter of the HWP MCP server

    A shallow embedding of [src/tools/hwp_table_tools.py]: the class
    [HwpTableTools], whose methods forward to an externally owned
    [HwpController], and the free function [parse_table_data].

    Python strings are kept as their UTF-8 bytes ([string]); integers are
    [Z].  The methods run in a small state-and-exception monad over a
    [World] that holds the state owned by the controller, the trace of the
    calls made on the controller, and the records handed to the logger. *)

From Stdlib Require Import ZArith String Ascii List Bool DecimalString.
Import ListNotations.
Open Scope Z_scope.
Open Scope list_scope.
Open Scope string_scope.

(** ** Python values *)

(** The values [json.loads] can produce, which are also the values the
    adapter tolerates as rows and cells.  A float is kept as the literal it
    was read from: the adapter only ever prints it. *)
#[local] Unset Elimination Schemes.
Inductive pyval : Type :=
| PNone
| PBool (b : bool)
| PInt (z : Z)
| PFloat (lit : string)
| PStr (s : string)
| PList (items : list pyval)
| PDict (items : list (string * pyval)).
#[local] Set Elimination Schemes.

(** [isinstance(v, list)] *)
Definition is_list (v : pyval) : bool :=
  match v with PList _ => true | _ => false end.

(** [v is not None] *)
Definition is_not_None (v : pyval) : bool :=
  match v with PNone => false | _ => true end.

(** The elements a comprehension [for cell in row] visits when [row] is a
    list; the adapter iterates a row only after [isinstance(row, list)]. *)
Definition list_items (v : pyval) : list pyval :=
  match v with PList items => items | _ => [] end.

Definition type_name (v : pyval) : string :=
  match v with
  | PNone => "NoneType"
  | PBool _ => "bool"
  | PInt _ => "int"
  | PFloat _ => "float"
  | PStr _ => "str"
  | PList _ => "list"
  | PDict _ => "dict"
  end.

(** What an f-string prints for [{type(v)}]. *)
Definition type_repr (v : pyval) : string :=
  "<class '" ++ type_name v ++ "'>".

(** The decimal text of an integer: what [str(z)] and [f"{z}"] give when
    they give a text (see [format_int] for when they do). *)
Definition str_int (z : Z) : string :=
  NilZero.string_of_int (Z.to_int z).

(** CPython converts an [int] to text only when it has at most 4300
    decimal digits ([sys.get_int_max_str_digits()]). *)
Definition max_str_digits : Z := 4300.

Definition printable (z : Z) : bool :=
  (Z.abs z <? 10 ^ max_str_digits)%Z.

(** [True] for the bytes [10xxxxxx] that continue a UTF-8 sequence. *)
Definition is_continuation (c : ascii) : bool :=
  let n := N_of_ascii c in (128 <=? n)%N && (n <? 192)%N.

(** The slice [s[:n]]: the first [n] code points of [s]. *)
Fixpoint slice_to (n : nat) (s : string) : string :=
  match s with
  | EmptyString => EmptyString
  | String c rest =>
      if is_continuation c then String c (slice_to n rest)
      else match n with
           | O => EmptyString
           | S n' => String c (slice_to n' rest)
           end
  end.

(** [needle in s] *)
Fixpoint contains (needle s : string) : bool :=
  prefix needle s ||
  match s with
  | EmptyString => false
  | String _ rest => contains needle rest
  end.

(** ** Exceptions and outcomes *)

(** The three classes the handlers of the module tell apart:
    [json.JSONDecodeError]; every other subclass of [Exception]; and the
    [BaseException]s outside [Exception] ([KeyboardInterrupt],
    [SystemExit]), which [except Exception] lets through. *)
Inductive exn_class : Type :=
| JSONDecodeError
| OtherException
| BaseExceptionOnly.

Record exn : Type := mk_exn {
  exn_cls : exn_class;
  exn_str : string   (* str(e) *)
}.

(** [isinstance(e, Exception)] *)
Definition is_Exception (e : exn) : bool :=
  match exn_cls e with
  | BaseExceptionOnly => false
  | _ => true
  end.

(** [isinstance(e, json.JSONDecodeError)] *)
Definition is_JSONDecodeError (e : exn) : bool :=
  match exn_cls e with
  | JSONDecodeError => true
  | _ => false
  end.

Inductive outcome (A : Type) : Type :=
| Ret (a : A)
| Raise (e : exn).
Arguments Ret {A} a.
Arguments Raise {A} e.

(** The [ValueError] of an [int] with too many digits to convert. *)
Definition int_too_long : exn :=
  mk_exn OtherException
    "Exceeds the limit (4300 digits) for integer string conversion; use sys.set_int_max_str_digits() to increase the limit".

(** [str(z)] and [f"{z}"] for an [int] argument: the decimal text, or the
    [ValueError] when [z] has more than 4300 digits. *)
Definition int_text (z : Z) : outcome string :=
  if printable z then Ret (str_int z) else Raise int_too_long.

(** ** Logging *)

Inductive log_level : Type := INFO | WARNING | ERROR.

Record log_record : Type := mk_log {
  log_level_of : log_level;
  log_msg : string;
  log_exc_info : bool
}.

(** ** The controller interface *)

(** The methods of the external controller the adapter consumes.  The
    controller owns a state [St] (the host application and its document);
    a method may change it, and either returns or raises. *)
Module HwpController.
Record t (St : Type) : Type := mk {
  insert_table : Z -> Z -> St -> outcome bool * St;
  fill_table_cell : Z -> Z -> string -> St -> outcome bool * St;
  merge_table_cells : Z -> Z -> Z -> Z -> St -> outcome bool * St;
  get_table_cell_text : Z -> Z -> St -> outcome string * St;
  fill_table_with_data :
    list (list string) -> Z -> Z -> bool -> St -> outcome bool * St;
  run_action : string -> St -> outcome bool * St
}.
Arguments mk {St}.
Arguments insert_table {St}.
Arguments fill_table_cell {St}.
Arguments merge_table_cells {St}.
Arguments get_table_cell_text {St}.
Arguments fill_table_with_data {St}.
Arguments run_action {St}.
End HwpController.

(** A call made on the controller, with its arguments. *)
Inductive call : Type :=
| InsertTable (rows cols : Z)
| FillTableCell (row col : Z) (text : string)
| MergeTableCells (start_row start_col end_row end_col : Z)
| GetTableCellText (row col : Z)
| FillTableWithData (data : list (list string)) (start_row start_col : Z)
    (has_header : bool)
| RunAction (action_name : string).

(** How a call ended. *)
Inductive reply : Type :=
| ReturnedBool (b : bool)
| ReturnedStr (s : string)
| Raised (e : exn).

Definition event : Type := (call * reply)%type.

Definition reply_of {R : Type} (inj : R -> reply) (r : outcome R) : reply :=
  match r with
  | Ret a => inj a
  | Raise e => Raised e
  end.

(** ** A reference model of [json.loads]

    The adapter is verified against any decoder (see the section
    [Adapter]); this module gives one concrete decoder for the closed
    examples.  It follows CPython's [json] package on a [str] document:
    the scanner of [_json.c] (before 3.13, whose only difference is the
    message for a trailing comma), [JSONDecoder.decode] and the message of
    [JSONDecodeError].  Positions count code points, as Python's do. *)
Module Json.

(** The code points of a UTF-8 byte string. *)
Fixpoint utf8_decode (s : string) (acc : N) (need : nat) : list N :=
  match s with
  | EmptyString => []
  | String c rest =>
      let b := N_of_ascii c in
      match need with
      | S k =>
          let acc' := (acc * 64 + b mod 64)%N in
          match k with
          | O => acc' :: utf8_decode rest 0%N O
          | S _ => utf8_decode rest acc' k
          end
      | O =>
          if (b <? 128)%N then b :: utf8_decode rest 0%N O
          else if (b <? 224)%N then utf8_decode rest (b mod 32)%N 1%nat
          else if (b <? 240)%N then utf8_decode rest (b mod 16)%N 2%nat
          else utf8_decode rest (b mod 8)%N 3%nat
      end
  end.

Definition code_points (s : string) : list N := utf8_decode s 0%N O.

Definition byte (n : N) : string := String (ascii_of_N n) EmptyString.

Definition utf8_encode (cp : N) : string :=
  (if cp <? 128 then byte cp
   else if cp <? 2048 then byte (192 + cp / 64) ++ byte (128 + cp mod 64)
   else if cp <? 65536 then
     byte (224 + cp / 4096) ++ byte (128 + (cp / 64) mod 64)
       ++ byte (128 + cp mod 64)
   else
     byte (240 + cp / 262144) ++ byte (128 + (cp / 4096) mod 64)
       ++ byte (128 + (cp / 64) mod 64) ++ byte (128 + cp mod 64))%N.

Definition encode (cps : list N) : string :=
  fold_right (fun cp s => utf8_encode cp ++ s) EmptyString cps.

Inductive scan_result (A : Type) : Type :=
| Scanned (a : A) (rest : list N) (pos : N)
| StopIteration (pos : N)
| DecodeError (msg : string) (pos : N)
| RecursionError.
Arguments Scanned {A} a rest pos.
Arguments StopIteration {A} pos.
Arguments DecodeError {A} msg pos.
Arguments RecursionError {A}.

(** [IS_WHITESPACE]: space, tab, line feed, carriage return. *)
Definition is_whitespace (c : N) : bool :=
  ((c =? 32) || (c =? 9) || (c =? 10) || (c =? 13))%N.

Fixpoint skip_whitespace (rest : list N) (pos : N) : list N * N :=
  match rest with
  | c :: tl =>
      if is_whitespace c then skip_whitespace tl (pos + 1)%N else (rest, pos)
  | [] => (rest, pos)
  end.

Definition is_digit (c : N) : bool := ((48 <=? c) && (c <=? 57))%N.

Definition hex_digit (c : N) : option N :=
  (if (48 <=? c) && (c <=? 57) then Some (c - 48)
   else if (97 <=? c) && (c <=? 102) then Some (c - 87)
   else if (65 <=? c) && (c <=? 70) then Some (c - 55)
   else None)%N.

Definition hex4 (h1 h2 h3 h4 : N) : option N :=
  match hex_digit h1, hex_digit h2, hex_digit h3, hex_digit h4 with
  | Some a, Some b, Some c, Some d => Some (((a * 16 + b) * 16 + c) * 16 + d)%N
  | _, _, _, _ => None
  end.

Definition is_high_surrogate (u : N) : bool := ((55296 <=? u) && (u <=? 56319))%N.
Definition is_low_surrogate (u : N) : bool := ((56320 <=? u) && (u <=? 57343))%N.
Definition join_surrogates (u u2 : N) : N :=
  (65536 + ((u - 55296) * 1024 + (u2 - 56320)))%N.

(** The one-character escapes after a backslash. *)
Definition unescape (c : N) : option N :=
  (if c =? 34 then Some 34          (* quotation mark *)
   else if c =? 92 then Some 92     (* backslash *)
   else if c =? 47 then Some 47     (* slash *)
   else if c =? 98 then Some 8      (* b *)
   else if c =? 102 then Some 12    (* f *)
   else if c =? 110 then Some 10    (* n *)
   else if c =? 114 then Some 13    (* r *)
   else if c =? 116 then Some 9     (* t *)
   else None)%N.

(** [scanstring_unicode], strict: [rest] starts after the opening quote,
    which sits at [begin]; [pos] is the index of the head of [rest]. *)
Fixpoint scanstring (begin : N) (rest : list N) (pos : N) (acc : list N)
  : scan_result string :=
  match rest with
  | [] => DecodeError "Unterminated string starting at" begin
  | c :: tl =>
      if (c =? 34)%N then Scanned (encode (rev acc)) tl (pos + 1)%N
      else if (c =? 92)%N then
        match tl with
        | [] => DecodeError "Unterminated string starting at" begin
        | e :: tl2 =>
            if (e =? 117)%N then
              match tl2 with
              | h1 :: h2 :: h3 :: h4 :: tl3 =>
                  match hex4 h1 h2 h3 h4 with
                  | None => DecodeError "Invalid \uXXXX escape" (pos + 1)%N
                  | Some u =>
                      if is_high_surrogate u then
                        match tl3 with
                        | b :: v :: g1 :: g2 :: g3 :: g4 :: tl4 =>
                            if ((b =? 92) && (v =? 117))%N then
                              match hex4 g1 g2 g3 g4 with
                              | None =>
                                  DecodeError "Invalid \uXXXX escape" (pos + 7)%N
                              | Some u2 =>
                                  if is_low_surrogate u2
                                  then scanstring begin tl4 (pos + 12)%N
                                         (join_surrogates u u2 :: acc)
                                  else scanstring begin tl3 (pos + 6)%N (u :: acc)
                              end
                            else scanstring begin tl3 (pos + 6)%N (u :: acc)
                        | _ => scanstring begin tl3 (pos + 6)%N (u :: acc)
                        end
                      else scanstring begin tl3 (pos + 6)%N (u :: acc)
                  end
              | _ => DecodeError "Invalid \uXXXX escape" (pos + 1)%N
              end
            else
              match unescape e with
              | Some ch => scanstring begin tl2 (pos + 2)%N (ch :: acc)
              | None => DecodeError "Invalid \escape" pos
              end
        end
      else if (c <=? 31)%N then DecodeError "Invalid control character at" pos
      else scanstring begin tl (pos + 1)%N (c :: acc)
  end.

(** The longest run of decimal digits at the head of [rest]. *)
Fixpoint span_digits (rest : list N) : list N * list N :=
  match rest with
  | c :: tl =>
      if is_digit c
      then let (ds, tl') := span_digits tl in (c :: ds, tl')
      else ([], rest)
  | [] => ([], [])
  end.

Definition digits_value (ds : list N) : Z :=
  fold_left (fun acc d => acc * 10 + Z.of_N (d - 48)%N) ds 0.

(** The integer part, an optional minus and then [0] or a run of digits
    that does not start with [0]: sign, digits, what follows. *)
Definition match_integer (rest : list N) : option (bool * list N * list N) :=
  let (neg, r) :=
    match rest with
    | c :: tl => if (c =? 45)%N then (true, tl) else (false, rest)
    | [] => (false, rest)
    end in
  match r with
  | c :: tl =>
      if (c =? 48)%N then Some (neg, [c], tl)
      else if is_digit c
      then let (ds, tl') := span_digits tl in Some (neg, c :: ds, tl')
      else None
  | [] => None
  end.

(** The fraction, a dot and at least one digit, when present. *)
Definition match_fraction (rest : list N) : list N * list N :=
  match rest with
  | c :: tl =>
      if (c =? 46)%N then
        match span_digits tl with
        | ([], _) => ([], rest)
        | (ds, tl') => (c :: ds, tl')
        end
      else ([], rest)
  | [] => ([], rest)
  end.

(** The exponent, [e] or [E], an optional sign and at least one digit,
    when present. *)
Definition match_exponent (rest : list N) : list N * list N :=
  match rest with
  | c :: tl =>
      if ((c =? 101) || (c =? 69))%N then
        let (sign, r) :=
          match tl with
          | s :: tl2 =>
              if ((s =? 45) || (s =? 43))%N then ([s], tl2) else ([], tl)
          | [] => ([], tl)
          end in
        match span_digits r with
        | ([], _) => ([], rest)
        | (ds, tl') => (c :: sign ++ ds, tl')%list
        end
      else ([], rest)
  | [] => ([], rest)
  end.

(** [_match_number_unicode]: an [int] when the literal has neither
    fraction nor exponent, a [float] (kept as its literal) otherwise. *)
Definition match_number (rest : list N) (pos : N) : scan_result pyval :=
  match match_integer rest with
  | None => StopIteration pos
  | Some (neg, ds, r1) =>
      let (frac, r2) := match_fraction r1 in
      let (expo, r3) := match_exponent r2 in
      let int_lit := ((if neg then [45%N] else []) ++ ds)%list in
      let lit := (int_lit ++ frac ++ expo)%list in
      let pos' := (pos + N.of_nat (List.length lit))%N in
      match frac, expo with
      | [], [] =>
          Scanned (PInt (if neg then - digits_value ds else digits_value ds))
            r3 pos'
      | _, _ => Scanned (PFloat (encode lit)) r3 pos'
      end
  end.

(** [rest] without the prefix [word], when it starts with it. *)
Fixpoint strip_prefix (word rest : list N) : option (list N) :=
  match word, rest with
  | [], _ => Some rest
  | w :: word', c :: rest' =>
      if (w =? c)%N then strip_prefix word' rest' else None
  | _ :: _, [] => None
  end.

(** [PyDict_SetItem]: a repeated key keeps its place and takes the new value. *)
Fixpoint dict_set (k : string) (v : pyval) (items : list (string * pyval))
  : list (string * pyval) :=
  match items with
  | [] => [(k, v)]
  | (k', v') :: tl =>
      if String.eqb k k' then (k, v) :: tl else (k', v') :: dict_set k v tl
  end.

Definition constant (word : string) (v : pyval) (rest : list N) (pos : N)
  (otherwise : scan_result pyval) : scan_result pyval :=
  match strip_prefix (code_points word) rest with
  | Some rest' => Scanned v rest' (pos + N.of_nat (String.length word))%N
  | None => otherwise
  end.

Definition scan_map {A B : Type} (f : A -> B) (r : scan_result A)
  : scan_result B :=
  match r with
  | Scanned a rest pos => Scanned (f a) rest pos
  | StopIteration pos => StopIteration pos
  | DecodeError msg pos => DecodeError msg pos
  | RecursionError => RecursionError
  end.

(** [scan_once_unicode] with the loops of [_parse_array_unicode] and
    [_parse_object_unicode].  [fuel] bounds the calls; running out of it is
    the decoder's [RecursionError]. *)
Fixpoint scan_once (fuel : nat) (rest : list N) (pos : N) {struct fuel}
  : scan_result pyval :=
  match fuel with
  | O => RecursionError
  | S fuel' =>
      match rest with
      | [] => StopIteration pos
      | c :: tl =>
          if (c =? 34)%N then scan_map PStr (scanstring pos tl (pos + 1)%N [])
          else if (c =? 123)%N then
            let (r, p) := skip_whitespace tl (pos + 1)%N in
            match r with
            | c' :: tl' =>
                if (c' =? 125)%N then Scanned (PDict []) tl' (p + 1)%N
                else object_items fuel' r p []
            | [] => object_items fuel' r p []
            end
          else if (c =? 91)%N then
            let (r, p) := skip_whitespace tl (pos + 1)%N in
            match r with
            | c' :: tl' =>
                if (c' =? 93)%N then Scanned (PList []) tl' (p + 1)%N
                else array_items fuel' r p []
            | [] => array_items fuel' r p []
            end
          else
            constant "null" PNone rest pos
              (constant "true" (PBool true) rest pos
                 (constant "false" (PBool false) rest pos
                    (constant "NaN" (PFloat "NaN") rest pos
                       (constant "Infinity" (PFloat "Infinity") rest pos
                          (constant "-Infinity" (PFloat "-Infinity") rest pos
                             (match_number rest pos))))))
      end
  end

with array_items (fuel : nat) (rest : list N) (pos : N) (acc : list pyval)
  {struct fuel} : scan_result pyval :=
  match fuel with
  | O => RecursionError
  | S fuel' =>
      match scan_once fuel' rest pos with
      | Scanned v r1 p1 =>
          let (r2, p2) := skip_whitespace r1 p1 in
          match r2 with
          | c :: tl =>
              if (c =? 93)%N then Scanned (PList (rev (v :: acc))) tl (p2 + 1)%N
              else if (c =? 44)%N then
                let (r3, p3) := skip_whitespace tl (p2 + 1)%N in
                array_items fuel' r3 p3 (v :: acc)
              else DecodeError "Expecting ',' delimiter" p2
          | [] => DecodeError "Expecting ',' delimiter" p2
          end
      | StopIteration p => StopIteration p
      | DecodeError msg p => DecodeError msg p
      | RecursionError => RecursionError
      end
  end

with object_items (fuel : nat) (rest : list N) (pos : N)
  (acc : list (string * pyval)) {struct fuel} : scan_result pyval :=
  match fuel with
  | O => RecursionError
  | S fuel' =>
      match rest with
      | [] => DecodeError "Expecting property name enclosed in double quotes" pos
      | c :: tl =>
          if negb (c =? 34)%N
          then DecodeError "Expecting property name enclosed in double quotes" pos
          else
            match scanstring pos tl (pos + 1)%N [] with
            | Scanned key r1 p1 =>
                let (r2, p2) := skip_whitespace r1 p1 in
                match r2 with
                | [] => DecodeError "Expecting ':' delimiter" p2
                | c2 :: tl2 =>
                    if negb (c2 =? 58)%N
                    then DecodeError "Expecting ':' delimiter" p2
                    else
                      let (r3, p3) := skip_whitespace tl2 (p2 + 1)%N in
                      match scan_once fuel' r3 p3 with
                      | Scanned v r4 p4 =>
                          let (r5, p5) := skip_whitespace r4 p4 in
                          match r5 with
                          | c5 :: tl5 =>
                              if (c5 =? 125)%N
                              then Scanned (PDict (dict_set key v acc)) tl5
                                     (p5 + 1)%N
                              else if (c5 =? 44)%N then
                                let (r6, p6) := skip_whitespace tl5 (p5 + 1)%N in
                                object_items fuel' r6 p6 (dict_set key v acc)
                              else DecodeError "Expecting ',' delimiter" p5
                          | [] => DecodeError "Expecting ',' delimiter" p5
                          end
                      | StopIteration p => StopIteration p
                      | DecodeError msg p => DecodeError msg p
                      | RecursionError => RecursionError
                      end
                end
            | StopIteration p => StopIteration p
            | DecodeError msg p => DecodeError msg p
            | RecursionError => RecursionError
            end
      end
  end.

(** Line and column of the code point at [pos], both counted from 1. *)
Fixpoint line_col (doc : list N) (pos : nat) (line col : N) : N * N :=
  match pos, doc with
  | S pos', c :: tl =>
      if (c =? 10)%N then line_col tl pos' (line + 1)%N 1%N
      else line_col tl pos' line (col + 1)%N
  | _, _ => (line, col)
  end.

Definition str_N (n : N) : string := str_int (Z.of_N n).

(** [json.JSONDecodeError(msg, doc, pos)], with the text of its [str]. *)
Definition decode_error (msg : string) (doc : list N) (pos : N) : exn :=
  let (line, col) := line_col doc (N.to_nat pos) 1%N 1%N in
  mk_exn JSONDecodeError
    (msg ++ ": line " ++ str_N line ++ " column " ++ str_N col
         ++ " (char " ++ str_N pos ++ ")").

(** [json.loads(s)] for a [str] document. *)
Definition loads (s : string) : outcome pyval :=
  let doc := code_points s in
  match doc with
  | 65279%N :: _ =>
      Raise (decode_error "Unexpected UTF-8 BOM (decode using utf-8-sig)" doc 0)
  | _ =>
      let (r0, p0) := skip_whitespace doc 0%N in
      match scan_once (2 * List.length doc + 2) r0 p0 with
      | Scanned v r1 p1 =>
          let (r2, p2) := skip_whitespace r1 p1 in
          match r2 with
          | [] => Ret v
          | _ :: _ => Raise (decode_error "Extra data" doc p2)
          end
      | StopIteration p => Raise (decode_error "Expecting value" doc p)
      | DecodeError msg p => Raise (decode_error msg doc p)
      | RecursionError =>
          Raise (mk_exn OtherException
                   "maximum recursion depth exceeded while decoding a JSON document")
      end
  end.

End Json.

(** ** A reference model of [str] on compound values

    [str] of a list or a dict is its [repr], which quotes the strings
    inside.  The adapter is verified against any such printer; this one
    serves the closed examples.  Code points outside ASCII are taken as
    printable, and a float prints as the literal it was read from. *)
Module Builtins.

Definition double_quote : string := String (ascii_of_N 34) EmptyString.

Definition hex_char (n : N) : string :=
  Json.byte (if (n <? 10)%N then 48 + n else 87 + n)%N.

(** The body of [repr(s)] between the quotes [q]. *)
Fixpoint repr_chars (q : ascii) (s : string) : string :=
  match s with
  | EmptyString => EmptyString
  | String c rest =>
      let n := N_of_ascii c in
      (if (n =? 92)%N then "\\"
       else if Ascii.eqb c q then String "\" (String q EmptyString)
       else if (n =? 10)%N then "\n"
       else if (n =? 13)%N then "\r"
       else if (n =? 9)%N then "\t"
       else if ((n <? 32) || (n =? 127))%N
       then "\x" ++ hex_char (n / 16) ++ hex_char (n mod 16)
       else String c EmptyString) ++ repr_chars q rest
  end.

(** [repr(s)] for a [str]: single quotes, unless [s] holds a single quote
    and no double quote. *)
Definition repr_str (s : string) : string :=
  if contains "'" s && negb (contains double_quote s)
  then double_quote ++ repr_chars (ascii_of_N 34) s ++ double_quote
  else "'" ++ repr_chars "'" s ++ "'".

Fixpoint repr (v : pyval) : string :=
  match v with
  | PNone => "None"
  | PBool true => "True"
  | PBool false => "False"
  | PInt z => str_int z
  | PFloat lit => lit
  | PStr s => repr_str s
  | PList items =>
      "[" ++ (fix join (l : list pyval) : string :=
                match l with
                | [] => EmptyString
                | [x] => repr x
                | x :: tl => repr x ++ ", " ++ join tl
                end) items ++ "]"
  | PDict items =>
      "{" ++ (fix join (l : list (string * pyval)) : string :=
                match l with
                | [] => EmptyString
                | [(k, x)] => repr_str k ++ ": " ++ repr x
                | (k, x) :: tl => repr_str k ++ ": " ++ repr x ++ ", " ++ join tl
                end) items ++ "}"
  end.

End Builtins.

(** ** The monad of the adapter: state and exceptions *)

(** A computation over a world [W] returns or raises, and leaves a world
    behind in both cases (what was done before a [raise] stays done). *)
Definition M (W A : Type) : Type := W -> outcome A * W.

Definition ret {W A : Type} (a : A) : M W A := fun w => (Ret a, w).

Definition bind {W A B : Type} (m : M W A) (k : A -> M W B) : M W B :=
  fun w =>
    match m w with
    | (Ret a, w') => k a w'
    | (Raise e, w') => (Raise e, w')
    end.

(** The outcome of a pure library call, raised or returned in place. *)
Definition lift {W A : Type} (r : outcome A) : M W A := fun w => (r, w).

(** An integer argument printed inside an f-string. *)
Definition format_int {W : Type} (z : Z) : M W string := lift (int_text z).

Notation "x <- m ;; k" := (bind m (fun x => k))
  (at level 61, m at next level, right associativity).
Notation "m ;;; k" := (bind m (fun _ => k))
  (at level 61, right associativity).

(** The [except] clauses of a [try], in order: the class test and the
    handler of each. *)
Definition clauses (W A : Type) : Type :=
  list ((exn -> bool) * (exn -> M W A)).

Fixpoint find_handler {W A : Type} (cs : clauses W A) (e : exn)
  : option (M W A) :=
  match cs with
  | [] => None
  | (test, handler) :: cs' =>
      if test e then Some (handler e) else find_handler cs' e
  end.

(** [try: body except ...]: the first clause whose class matches handles
    the exception; with none, it propagates. *)
Definition try_except {W A : Type} (body : M W A) (cs : clauses W A) : M W A :=
  fun w =>
    match body w with
    | (Ret a, w') => (Ret a, w')
    | (Raise e, w') =>
        match find_handler cs e with
        | Some handler => handler w'
        | None => (Raise e, w')
        end
    end.

(** [data] when [if data:] holds for a [str] or [None] argument. *)
Definition truthy_str (data : option string) : option string :=
  match data with
  | Some (String c rest) => Some (String c rest)
  | Some EmptyString => None
  | None => None
  end.

(** [data_list] when [if not data_list:] fails for a list or [None]. *)
Definition truthy_list {A : Type} (data_list : option (list A))
  : option (list A) :=
  match data_list with
  | Some (x :: rest) => Some (x :: rest)
  | Some [] => None
  | None => None
  end.

(** ** The adapter *)

Section Adapter.

(** The state owned by the controller. *)
Variable St : Type.

(** [json.loads] on a [str]: a value or an exception. *)
Variable json_loads : string -> outcome pyval.

(** [str] on the values whose text is not fixed here: floats, lists and
    dicts. *)
Variable str_other : pyval -> string.

(** [str(v)] for a row or a cell.  An [int] inside a value is taken to be
    within the limit of [int_text], as every [int] that [json.loads] builds
    is; where a caller passes the values, the statements say so (see
    [within_limit]). *)
Definition str (v : pyval) : string :=
  match v with
  | PNone => "None"
  | PBool true => "True"
  | PBool false => "False"
  | PInt z => str_int z
  | PStr s => s
  | PFloat _ | PList _ | PDict _ => str_other v
  end.

(** [str(cell) if cell is not None else ""] *)
Definition cell_text (cell : pyval) : string :=
  if is_not_None cell then str cell else "".

Record World : Type := mk_world {
  ctl_state : St;            (* the host application, owned by the controller *)
  calls : list event;        (* the calls made on the controller, oldest first *)
  logs : list log_record     (* the records handed to the logger, oldest first *)
}.

Definition log (level : log_level) (msg : string) (exc_info : bool)
  : M World unit :=
  fun w =>
    (Ret tt,
     {| ctl_state := ctl_state w;
        calls := calls w;
        logs := (logs w ++ [mk_log level msg exc_info])%list |}).

Definition logger_info (msg : string) : M World unit := log INFO msg false.
Definition logger_warning (msg : string) : M World unit := log WARNING msg false.
Definition logger_error (msg : string) (exc_info : bool) : M World unit :=
  log ERROR msg exc_info.

(** One call on the controller: the method runs on the controller's state
    and the call is recorded with its reply. *)
Definition invoke {R : Type} (c : call) (inj : R -> reply)
  (method : St -> outcome R * St) : M World R :=
  fun w =>
    let (r, st') := method (ctl_state w) in
    (r,
     {| ctl_state := st';
        calls := (calls w ++ [(c, reply_of inj r)])%list;
        logs := logs w |}).

(** The instance: [self.hwp_controller], [None] until a controller is set. *)
Record HwpTableTools : Type := mk_tools {
  hwp_controller : option (HwpController.t St)
}.

Definition init (hwp_controller : option (HwpController.t St))
  : HwpTableTools :=
  mk_tools hwp_controller.

Definition set_controller (self : HwpTableTools)
  (hwp_controller : HwpController.t St) : HwpTableTools :=
  mk_tools (Some hwp_controller).

(** In the methods below an integer argument that an f-string prints is
    formatted with [format_int] where the first f-string that prints it is
    evaluated; a later f-string that prints the same integer cannot fail
    any more and reuses the text.  [len(data_list)] is a machine-size
    integer, which always has a text. *)
Definition insert_table (self : HwpTableTools) (rows cols : Z)
  : M World string :=
  try_except
    (match hwp_controller self with
     | None => ret "Error: HWP Controller is not set"
     | Some ctl =>
         ok <- invoke (InsertTable rows cols) ReturnedBool
                 (HwpController.insert_table ctl rows cols) ;;
         if ok then
           r <- format_int rows ;;
           c <- format_int cols ;;
           logger_info ("Successfully inserted " ++ r ++ "x" ++ c
                          ++ " table") ;;;
           ret ("Table inserted with " ++ r ++ " rows and " ++ c
                  ++ " columns")
         else ret "Error: Failed to insert table"
     end)
    [(is_Exception,
      fun e =>
        logger_error ("Error inserting table: " ++ exn_str e) true ;;;
        ret ("Error: " ++ exn_str e))].

Definition set_cell_text (self : HwpTableTools) (row col : Z) (text : string)
  : M World string :=
  try_except
    (match hwp_controller self with
     | None => ret "Error: HWP Controller is not set"
     | Some ctl =>
         ok <- invoke (FillTableCell row col text) ReturnedBool
                 (HwpController.fill_table_cell ctl row col text) ;;
         if ok then
           r <- format_int row ;;
           c <- format_int col ;;
           logger_info ("셀 텍스트 설정 완료: (" ++ r ++ ", " ++ c ++ ")") ;;;
           ret ("셀(" ++ r ++ ", " ++ c ++ ")에 텍스트 입력 완료")
         else
           r <- format_int row ;;
           c <- format_int col ;;
           ret ("셀(" ++ r ++ ", " ++ c ++ ")에 텍스트 입력 실패")
     end)
    [(is_Exception,
      fun e =>
        logger_error ("셀 텍스트 설정 중 오류: " ++ exn_str e) true ;;;
        ret ("Error: " ++ exn_str e))].

Definition merge_cells (self : HwpTableTools)
  (start_row start_col end_row end_col : Z) : M World string :=
  try_except
    (match hwp_controller self with
     | None => ret "Error: HWP Controller is not set"
     | Some ctl =>
         ok <- invoke (MergeTableCells start_row start_col end_row end_col)
                 ReturnedBool
                 (HwpController.merge_table_cells ctl start_row start_col
                    end_row end_col) ;;
         if ok then
           sr <- format_int start_row ;;
           sc <- format_int start_col ;;
           er <- format_int end_row ;;
           ec <- format_int end_col ;;
           logger_info ("셀 병합 완료: (" ++ sr ++ "," ++ sc ++ ") - (" ++ er
                          ++ "," ++ ec ++ ")") ;;;
           ret ("셀 병합 완료 (" ++ sr ++ "," ++ sc ++ ") - (" ++ er ++ ","
                  ++ ec ++ ")")
         else ret "셀 병합 실패"
     end)
    [(is_Exception,
      fun e =>
        logger_error ("셀 병합 중 오류: " ++ exn_str e) true ;;;
        ret ("Error: " ++ exn_str e))].

Definition get_cell_text (self : HwpTableTools) (row col : Z)
  : M World string :=
  try_except
    (match hwp_controller self with
     | None => ret "Error: HWP Controller is not set"
     | Some ctl =>
         text <- invoke (GetTableCellText row col) ReturnedStr
                   (HwpController.get_table_cell_text ctl row col) ;;
         r <- format_int row ;;
         c <- format_int col ;;
         logger_info ("셀 텍스트 가져오기 완료: (" ++ r ++ ", " ++ c ++ ")") ;;;
         ret text
     end)
    [(is_Exception,
      fun e =>
        logger_error ("셀 텍스트 가져오기 중 오류: " ++ exn_str e) true ;;;
        ret ("Error: " ++ exn_str e))].

(** [[[str(cell) for cell in row] for row in data_array]], reached only
    when every row is a list. *)
Definition str_rows (data_array : list pyval) : list (list string) :=
  map (fun row => map str (list_items row)) data_array.

(** A table of strings as a Python value, for the f-string that logs it. *)
Definition table_value (t : list (list string)) : pyval :=
  PList (map (fun row => PList (map PStr row)) t).

Definition create_table_with_data (self : HwpTableTools) (rows cols : Z)
  (data : option string) (has_header : bool) : M World string :=
  try_except
    (match hwp_controller self with
     | None => ret "Error: HWP Controller is not set"
     | Some ctl =>
         created <- invoke (InsertTable rows cols) ReturnedBool
                      (HwpController.insert_table ctl rows cols) ;;
         if negb created then ret "Error: Failed to create table"
         else
           match truthy_str data with
           | Some data =>
               try_except
                 (logger_info ("Parsing data string: " ++ slice_to 100 data
                                 ++ "...") ;;;
                  data_array <- lift (json_loads data) ;;
                  match data_array with
                  | PList data_rows =>
                      if (List.length data_rows =? 0)%nat then
                        ret "표는 생성되었으나 데이터 리스트가 비어 있습니다."
                      else if negb (forallb is_list data_rows) then
                        ret "표는 생성되었으나 데이터가 2차원 배열 형식이 아닙니다."
                      else
                        let str_data_array := str_rows data_rows in
                        logger_info ("Converted data array: "
                                       ++ str (table_value
                                                 (firstn 2 str_data_array))
                                       ++ "...") ;;;
                        filled <- invoke
                                    (FillTableWithData str_data_array 1 1
                                       has_header)
                                    ReturnedBool
                                    (HwpController.fill_table_with_data ctl
                                       str_data_array 1 1 has_header) ;;
                        if filled then
                          r <- format_int rows ;;
                          c <- format_int cols ;;
                          ret ("표 생성 및 데이터 입력 완료 (" ++ r ++ "x" ++ c
                                 ++ " 크기)")
                        else
                          ret "표는 생성되었으나 데이터 입력에 실패했습니다."
                  | _ =>
                      ret ("표는 생성되었으나 데이터가 리스트 형식이 아닙니다. 받은 데이터 타입: "
                             ++ type_repr data_array)
                  end)
                 [(is_JSONDecodeError,
                   fun e =>
                     logger_error ("JSON 파싱 오류: " ++ exn_str e) false ;;;
                     ret ("표는 생성되었으나 JSON 데이터 파싱 오류: "
                            ++ exn_str e));
                  (is_Exception,
                   fun data_error =>
                     logger_error ("표 데이터 입력 중 오류: "
                                     ++ exn_str data_error) true ;;;
                     ret ("표는 생성되었으나 데이터 입력 중 오류 발생: "
                            ++ exn_str data_error))]
           | None =>
               r <- format_int rows ;;
               c <- format_int cols ;;
               ret ("표 생성 완료 (" ++ r ++ "x" ++ c ++ " 크기)")
           end
     end)
    [(is_Exception,
      fun e =>
        logger_error ("표 생성 중 오류: " ++ exn_str e) true ;;;
        ret ("Error: " ++ exn_str e))].

(** The loop of [fill_table_with_data] over the rows: a row that is not a
    list is logged and replaced by the one-cell row [[str(row)]]. *)
Fixpoint process_rows (data_list : list pyval)
  (processed_data : list (list string)) : M World (list (list string)) :=
  match data_list with
  | [] => ret processed_data
  | row :: rest =>
      row' <- (if negb (is_list row) then
                 logger_warning ("행이 리스트 형식이 아님: " ++ type_repr row) ;;;
                 ret [PStr (str row)]
               else ret (list_items row)) ;;
      let processed_row := map cell_text row' in
      process_rows rest (processed_data ++ [processed_row])%list
  end.

Definition fill_table_with_data (self : HwpTableTools)
  (data_list : option (list pyval)) (start_row start_col : Z)
  (has_header : bool) : M World string :=
  try_except
    (match hwp_controller self with
     | None => ret "Error: HWP Controller is not set"
     | Some ctl =>
         match truthy_list data_list with
         | None => ret "Error: Data is required"
         | Some data_list =>
             sr <- format_int start_row ;;
             sc <- format_int start_col ;;
             logger_info ("Filling table with data: "
                            ++ str_int (Z.of_nat (List.length data_list))
                            ++ " rows, starting at (" ++ sr ++ ", " ++ sc
                            ++ ")") ;;;
             processed_data <- process_rows data_list [] ;;
             success <- invoke
                          (FillTableWithData processed_data start_row
                             start_col has_header)
                          ReturnedBool
                          (HwpController.fill_table_with_data ctl
                             processed_data start_row start_col has_header) ;;
             if success then
               logger_info "표 데이터 입력 완료" ;;;
               ret "표 데이터 입력 완료"
             else
               logger_error "hwp_controller.fill_table_with_data 호출 실패" false ;;;
               ret "표 데이터 입력 실패"
         end
     end)
    [(is_Exception,
      fun e =>
        logger_error ("표 데이터 입력 중 오류: " ++ exn_str e) true ;;;
        ret ("Error: " ++ exn_str e))].

Definition insert_left_column (self : HwpTableTools) : M World string :=
  try_except
    (match hwp_controller self with
     | None => ret "Error: HWP Controller is not set"
     | Some ctl =>
         success <- invoke (RunAction "TableInsertLeftColumn") ReturnedBool
                      (HwpController.run_action ctl "TableInsertLeftColumn") ;;
         if success then
           logger_info "왼쪽 칼럼 삽입 완료" ;;;
           ret "왼쪽 칼럼 삽입 완료"
         else ret "왼쪽 칼럼 삽입 실패"
     end)
    [(is_Exception,
      fun e =>
        logger_error ("왼쪽 칼럼 삽입 중 오류: " ++ exn_str e) true ;;;
        ret ("Error: " ++ exn_str e))].

Definition insert_right_column (self : HwpTableTools) : M World string :=
  try_except
    (match hwp_controller self with
     | None => ret "Error: HWP Controller is not set"
     | Some ctl =>
         success <- invoke (RunAction "TableInsertRightColumn") ReturnedBool
                      (HwpController.run_action ctl "TableInsertRightColumn") ;;
         if success then
           logger_info "오른쪽 칼럼 삽입 완료" ;;;
           ret "오른쪽 칼럼 삽입 완료"
         else ret "오른쪽 칼럼 삽입 실패"
     end)
    [(is_Exception,
      fun e =>
        logger_error ("오른쪽 칼럼 삽입 중 오류: " ++ exn_str e) true ;;;
        ret ("Error: " ++ exn_str e))].

Definition insert_upper_row (self : HwpTableTools) : M World string :=
  try_except
    (match hwp_controller self with
     | None => ret "Error: HWP Controller is not set"
     | Some ctl =>
         success <- invoke (RunAction "TableInsertUpperRow") ReturnedBool
                      (HwpController.run_action ctl "TableInsertUpperRow") ;;
         if success then
           logger_info "위쪽 행 삽입 완료" ;;;
           ret "위쪽 행 삽입 완료"
         else ret "위쪽 행 삽입 실패"
     end)
    [(is_Exception,
      fun e =>
        logger_error ("위쪽 행 삽입 중 오류: " ++ exn_str e) true ;;;
        ret ("Error: " ++ exn_str e))].

Definition insert_lower_row (self : HwpTableTools) : M World string :=
  try_except
    (match hwp_controller self with
     | None => ret "Error: HWP Controller is not set"
     | Some ctl =>
         success <- invoke (RunAction "TableInsertLowerRow") ReturnedBool
                      (HwpController.run_action ctl "TableInsertLowerRow") ;;
         if success then
           logger_info "아래쪽 행 삽입 완료" ;;;
           ret "아래쪽 행 삽입 완료"
         else ret "아래쪽 행 삽입 실패"
     end)
    [(is_Exception,
      fun e =>
        logger_error ("아래쪽 행 삽입 중 오류: " ++ exn_str e) true ;;;
        ret ("Error: " ++ exn_str e))].

Definition move_to_left_cell (self : HwpTableTools) : M World string :=
  try_except
    (match hwp_controller self with
     | None => ret "Error: HWP Controller is not set"
     | Some ctl =>
         success <- invoke (RunAction "TableLeftCell") ReturnedBool
                      (HwpController.run_action ctl "TableLeftCell") ;;
         if success then
           logger_info "왼쪽 셀로 이동 완료" ;;;
           ret "왼쪽 셀로 이동 완료"
         else ret "왼쪽 셀로 이동 실패"
     end)
    [(is_Exception,
      fun e =>
        logger_error ("왼쪽 셀로 이동 중 오류: " ++ exn_str e) true ;;;
        ret ("Error: " ++ exn_str e))].

Definition move_to_right_cell (self : HwpTableTools) : M World string :=
  try_except
    (match hwp_controller self with
     | None => ret "Error: HWP Controller is not set"
     | Some ctl =>
         success <- invoke (RunAction "TableRightCell") ReturnedBool
                      (HwpController.run_action ctl "TableRightCell") ;;
         if success then
           logger_info "오른쪽 셀로 이동 완료" ;;;
           ret "오른쪽 셀로 이동 완료"
         else ret "오른쪽 셀로 이동 실패"
     end)
    [(is_Exception,
      fun e =>
        logger_error ("오른쪽 셀로 이동 중 오류: " ++ exn_str e) true ;;;
        ret ("Error: " ++ exn_str e))].

Definition move_to_upper_cell (self : HwpTableTools) : M World string :=
  try_except
    (match hwp_controller self with
     | None => ret "Error: HWP Controller is not set"
     | Some ctl =>
         success <- invoke (RunAction "TableUpperCell") ReturnedBool
                      (HwpController.run_action ctl "TableUpperCell") ;;
         if success then
           logger_info "위쪽 셀로 이동 완료" ;;;
           ret "위쪽 셀로 이동 완료"
         else ret "위쪽 셀로 이동 실패"
     end)
    [(is_Exception,
      fun e =>
        logger_error ("위쪽 셀로 이동 중 오류: " ++ exn_str e) true ;;;
        ret ("Error: " ++ exn_str e))].

Definition move_to_lower_cell (self : HwpTableTools) : M World string :=
  try_except
    (match hwp_controller self with
     | None => ret "Error: HWP Controller is not set"
     | Some ctl =>
         success <- invoke (RunAction "TableLowerCell") ReturnedBool
                      (HwpController.run_action ctl "TableLowerCell") ;;
         if success then
           logger_info "아래쪽 셀로 이동 완료" ;;;
           ret "아래쪽 셀로 이동 완료"
         else ret "아래쪽 셀로 이동 실패"
     end)
    [(is_Exception,
      fun e =>
        logger_error ("아래쪽 셀로 이동 중 오류: " ++ exn_str e) true ;;;
        ret ("Error: " ++ exn_str e))].

Definition merge_tables (self : HwpTableTools) : M World string :=
  try_except
    (match hwp_controller self with
     | None => ret "Error: HWP Controller is not set"
     | Some ctl =>
         success <- invoke (RunAction "TableMergeTable") ReturnedBool
                      (HwpController.run_action ctl "TableMergeTable") ;;
         if success then
           logger_info "표 병합 완료" ;;;
           ret "표 병합 완료"
         else ret "표 병합 실패"
     end)
    [(is_Exception,
      fun e =>
        logger_error ("표 병합 중 오류: " ++ exn_str e) true ;;;
        ret ("Error: " ++ exn_str e))].

(** The row [parse_table_data] appends for one element of the decoded
    list: a list row cell by cell, anything else as a single cell. *)
Definition parsed_row (row : pyval) : list string :=
  if is_list row then map cell_text (list_items row) else [str row].

(** The free function [parse_table_data]. *)
Definition parse_table_data (data_str : string)
  : M World (list (list string)) :=
  try_except
    (data <- lift (json_loads data_str) ;;
     match data with
     | PList data_rows => ret (map parsed_row data_rows)
     | _ =>
         logger_error ("데이터가 리스트 형식이 아님: " ++ type_repr data) false ;;;
         ret []
     end)
    [(is_JSONDecodeError,
      fun e =>
        logger_error ("표 데이터 파싱 오류: " ++ exn_str e) false ;;;
        ret [])].

(** ** The public operations, as one type

    One constructor per public method of [HwpTableTools] with its
    arguments, so that a statement can range over every operation. *)
Inductive operation : Type :=
| Insert_table (rows cols : Z)
| Set_cell_text (row col : Z) (text : string)
| Merge_cells (start_row start_col end_row end_col : Z)
| Get_cell_text (row col : Z)
| Create_table_with_data (rows cols : Z) (data : option string)
    (has_header : bool)
| Fill_table_with_data (data_list : option (list pyval))
    (start_row start_col : Z) (has_header : bool)
| Insert_left_column
| Insert_right_column
| Insert_upper_row
| Insert_lower_row
| Move_to_left_cell
| Move_to_right_cell
| Move_to_upper_cell
| Move_to_lower_cell
| Merge_tables.

Definition call_method (self : HwpTableTools) (op : operation)
  : M World string :=
  match op with
  | Insert_table rows cols => insert_table self rows cols
  | Set_cell_text row col text => set_cell_text self row col text
  | Merge_cells start_row start_col end_row end_col =>
      merge_cells self start_row start_col end_row end_col
  | Get_cell_text row col => get_cell_text self row col
  | Create_table_with_data rows cols data has_header =>
      create_table_with_data self rows cols data has_header
  | Fill_table_with_data data_list start_row start_col has_header =>
      fill_table_with_data self data_list start_row start_col has_header
  | Insert_left_column => insert_left_column self
  | Insert_right_column => insert_right_column self
  | Insert_upper_row => insert_upper_row self
  | Insert_lower_row => insert_lower_row self
  | Move_to_left_cell => move_to_left_cell self
  | Move_to_right_cell => move_to_right_cell self
  | Move_to_upper_cell => move_to_upper_cell self
  | Move_to_lower_cell => move_to_lower_cell self
  | Merge_tables => merge_tables self
  end.

(** The operations that fire one named action. *)
Inductive table_action : Type :=
| InsertLeftColumn
| InsertRightColumn
| InsertUpperRow
| InsertLowerRow
| MoveToLeftCell
| MoveToRightCell
| MoveToUpperCell
| MoveToLowerCell
| MergeTables.

Definition action_method (a : table_action)
  : HwpTableTools -> M World string :=
  match a with
  | InsertLeftColumn => insert_left_column
  | InsertRightColumn => insert_right_column
  | InsertUpperRow => insert_upper_row
  | InsertLowerRow => insert_lower_row
  | MoveToLeftCell => move_to_left_cell
  | MoveToRightCell => move_to_right_cell
  | MoveToUpperCell => move_to_upper_cell
  | MoveToLowerCell => move_to_lower_cell
  | MergeTables => merge_tables
  end.

(** The calls an operation added to the trace. *)
Definition new_calls (w w' : World) : list event :=
  skipn (List.length (calls w)) (calls w').

(** The records an operation added to the log. *)
Definition new_logs (w w' : World) : list log_record :=
  skipn (List.length (logs w)) (logs w').

End Adapter.

Arguments mk_world {St}.
Arguments ctl_state {St}.
Arguments calls {St}.
Arguments logs {St}.
Arguments log {St}.
Arguments logger_info {St}.
Arguments logger_warning {St}.
Arguments logger_error {St}.
Arguments invoke {St R}.
Arguments mk_tools {St}.
Arguments hwp_controller {St}.
Arguments init {St}.
Arguments set_controller {St}.
Arguments insert_table {St}.
Arguments set_cell_text {St}.
Arguments merge_cells {St}.
Arguments get_cell_text {St}.
Arguments create_table_with_data {St}.
Arguments process_rows {St}.
Arguments fill_table_with_data {St}.
Arguments insert_left_column {St}.
Arguments insert_right_column {St}.
Arguments insert_upper_row {St}.
Arguments insert_lower_row {St}.
Arguments move_to_left_cell {St}.
Arguments move_to_right_cell {St}.
Arguments move_to_upper_cell {St}.
Arguments move_to_lower_cell {St}.
Arguments merge_tables {St}.
Arguments parse_table_data {St}.
Arguments call_method {St}.
Arguments action_method {St}.
Arguments new_calls {St}.
Arguments new_logs {St}.

(** ** The vocabulary of the statements *)

(** The action string, the success message and the failure message of each
    one-action operation. *)
Definition action_name (a : table_action) : string :=
  match a with
  | InsertLeftColumn => "TableInsertLeftColumn"
  | InsertRightColumn => "TableInsertRightColumn"
  | InsertUpperRow => "TableInsertUpperRow"
  | InsertLowerRow => "TableInsertLowerRow"
  | MoveToLeftCell => "TableLeftCell"
  | MoveToRightCell => "TableRightCell"
  | MoveToUpperCell => "TableUpperCell"
  | MoveToLowerCell => "TableLowerCell"
  | MergeTables => "TableMergeTable"
  end.

Definition action_success (a : table_action) : string :=
  match a with
  | InsertLeftColumn => "왼쪽 칼럼 삽입 완료"
  | InsertRightColumn => "오른쪽 칼럼 삽입 완료"
  | InsertUpperRow => "위쪽 행 삽입 완료"
  | InsertLowerRow => "아래쪽 행 삽입 완료"
  | MoveToLeftCell => "왼쪽 셀로 이동 완료"
  | MoveToRightCell => "오른쪽 셀로 이동 완료"
  | MoveToUpperCell => "위쪽 셀로 이동 완료"
  | MoveToLowerCell => "아래쪽 셀로 이동 완료"
  | MergeTables => "표 병합 완료"
  end.

Definition action_failure (a : table_action) : string :=
  match a with
  | InsertLeftColumn => "왼쪽 칼럼 삽입 실패"
  | InsertRightColumn => "오른쪽 칼럼 삽입 실패"
  | InsertUpperRow => "위쪽 행 삽입 실패"
  | InsertLowerRow => "아래쪽 행 삽입 실패"
  | MoveToLeftCell => "왼쪽 셀로 이동 실패"
  | MoveToRightCell => "오른쪽 셀로 이동 실패"
  | MoveToUpperCell => "위쪽 셀로 이동 실패"
  | MoveToLowerCell => "아래쪽 셀로 이동 실패"
  | MergeTables => "표 병합 실패"
  end.

Definition operation_of (a : table_action) : operation :=
  match a with
  | InsertLeftColumn => Insert_left_column
  | InsertRightColumn => Insert_right_column
  | InsertUpperRow => Insert_upper_row
  | InsertLowerRow => Insert_lower_row
  | MoveToLeftCell => Move_to_left_cell
  | MoveToRightCell => Move_to_right_cell
  | MoveToUpperCell => Move_to_upper_cell
  | MoveToLowerCell => Move_to_lower_cell
  | MergeTables => Merge_tables
  end.

(** A string of the form ["Error: <message>"]. *)
Definition is_error_string (s : string) : bool := prefix "Error: " s.

(** The message an operation returns when the controller did what was
    asked ([get_cell_text] returns the cell text instead). *)
Definition success_messages (op : operation) : list string :=
  match op with
  | Insert_table rows cols =>
      ["Table inserted with " ++ str_int rows ++ " rows and " ++ str_int cols
         ++ " columns"]
  | Set_cell_text row col _ =>
      ["셀(" ++ str_int row ++ ", " ++ str_int col ++ ")에 텍스트 입력 완료"]
  | Merge_cells start_row start_col end_row end_col =>
      ["셀 병합 완료 (" ++ str_int start_row ++ "," ++ str_int start_col
         ++ ") - (" ++ str_int end_row ++ "," ++ str_int end_col ++ ")"]
  | Get_cell_text _ _ => []
  | Create_table_with_data rows cols _ _ =>
      ["표 생성 완료 (" ++ str_int rows ++ "x" ++ str_int cols ++ " 크기)";
       "표 생성 및 데이터 입력 완료 (" ++ str_int rows ++ "x" ++ str_int cols
         ++ " 크기)"]
  | Fill_table_with_data _ _ _ _ => ["표 데이터 입력 완료"]
  | Insert_left_column => [action_success InsertLeftColumn]
  | Insert_right_column => [action_success InsertRightColumn]
  | Insert_upper_row => [action_success InsertUpperRow]
  | Insert_lower_row => [action_success InsertLowerRow]
  | Move_to_left_cell => [action_success MoveToLeftCell]
  | Move_to_right_cell => [action_success MoveToRightCell]
  | Move_to_upper_cell => [action_success MoveToUpperCell]
  | Move_to_lower_cell => [action_success MoveToLowerCell]
  | Merge_tables => [action_success MergeTables]
  end.

(** The message, without the prefix ["Error: "], an operation returns when
    the controller answered [False]. *)
Definition refusal_messages (op : operation) : list string :=
  match op with
  | Insert_table _ _ => []
  | Set_cell_text row col _ =>
      ["셀(" ++ str_int row ++ ", " ++ str_int col ++ ")에 텍스트 입력 실패"]
  | Merge_cells _ _ _ _ => ["셀 병합 실패"]
  | Get_cell_text _ _ => []
  | Create_table_with_data _ _ _ _ => []
  | Fill_table_with_data _ _ _ _ => ["표 데이터 입력 실패"]
  | Insert_left_column => [action_failure InsertLeftColumn]
  | Insert_right_column => [action_failure InsertRightColumn]
  | Insert_upper_row => [action_failure InsertUpperRow]
  | Insert_lower_row => [action_failure InsertLowerRow]
  | Move_to_left_cell => [action_failure MoveToLeftCell]
  | Move_to_right_cell => [action_failure MoveToRightCell]
  | Move_to_upper_cell => [action_failure MoveToUpperCell]
  | Move_to_lower_cell => [action_failure MoveToLowerCell]
  | Merge_tables => [action_failure MergeTables]
  end.

(** "The table was created, but": how [create_table_with_data] starts every
    message about a failure after [insert_table] succeeded. *)
Definition created_but : string := "표는 생성되었으나 ".

Definition is_create_table_with_data (op : operation) : bool :=
  match op with
  | Create_table_with_data _ _ _ _ => true
  | _ => false
  end.

(** The reply of a call that returned [True] or a string. *)
Definition answered (ev : event) : bool :=
  match snd ev with
  | ReturnedBool true => true
  | ReturnedStr _ => true
  | _ => false
  end.

(** The shapes of the strings the operations return: an error string; a
    success message after calls that all answered; a refusal message
    without prefix; a created-but message of [create_table_with_data]; the
    text [get_cell_text] read. *)
Inductive status (op : operation) (evs : list event) (s : string) : Prop :=
| status_error :
    is_error_string s = true -> status op evs s
| status_success :
    In s (success_messages op) -> forallb answered evs = true ->
    status op evs s
| status_refusal :
    In s (refusal_messages op) -> status op evs s
| status_created_but :
    is_create_table_with_data op = true -> prefix created_but s = true ->
    status op evs s
| status_cell_text (row col : Z) :
    op = Get_cell_text row col ->
    evs = [(GetTableCellText row col, ReturnedStr s)] ->
    status op evs s.

(** The exception of the last call of a trace, when that call raised. *)
Definition last_raised (evs : list event) : option (call * exn) :=
  match rev evs with
  | (c, Raised e) :: _ => Some (c, e)
  | _ => None
  end.

Definition is_fill_table_with_data_call (c : call) : bool :=
  match c with
  | FillTableWithData _ _ _ _ => true
  | _ => false
  end.

(** ** Example controllers and worlds *)
Module Examples.

(** A host that answers every call the same way and counts the calls. *)
Definition answering (b : bool) (text : string) : HwpController.t nat :=
  HwpController.mk
    (fun _ _ n => (Ret b, S n))
    (fun _ _ _ n => (Ret b, S n))
    (fun _ _ _ _ n => (Ret b, S n))
    (fun _ _ n => (Ret text, S n))
    (fun _ _ _ _ n => (Ret b, S n))
    (fun _ n => (Ret b, S n)).

(** A host on which every call raises [e]. *)
Definition raising (e : exn) : HwpController.t nat :=
  HwpController.mk
    (fun _ _ n => (Raise e, S n))
    (fun _ _ _ n => (Raise e, S n))
    (fun _ _ _ _ n => (Raise e, S n))
    (fun _ _ n => (Raise e, S n))
    (fun _ _ _ _ n => (Raise e, S n))
    (fun _ n => (Raise e, S n)).

(** The world before any call. *)
Definition fresh : World nat := mk_world O [] [].

(** A JSON string literal: [s] between double quotes. *)
Definition quoted (s : string) : string :=
  Builtins.double_quote ++ s ++ Builtins.double_quote.

(** The document [[["a","b"],["c","d"]]]. *)
Definition two_by_two : string :=
  "[[" ++ quoted "a" ++ "," ++ quoted "b" ++ "],["
       ++ quoted "c" ++ "," ++ quoted "d" ++ "]]".


(** An exception of the host, as a COM failure would be. *)
Definition boom : exn := mk_exn OtherException "boom".

End Examples.

(** The row [fill_table_with_data] forwards for one element of
    [data_list]. *)
Definition filled_row (str_other : pyval -> string) (row : pyval)
  : list string :=
  map (cell_text str_other)
    (if is_list row then list_items row else [PStr (str str_other row)]).

(** The warnings the loop of [fill_table_with_data] logs, one per row that
    is not a list. *)
Definition row_warnings (rows : list pyval) : list log_record :=
  flat_map
    (fun row =>
       if is_list row then []
       else [mk_log WARNING ("행이 리스트 형식이 아님: " ++ type_repr row) false])
    rows.


(** ** Vocabulary of the further properties *)

(** A table of strings as the list of lists of [str] a caller passes. *)
Definition rows_of_strings (t : list (list string)) : list pyval :=
  map (fun row => PList (map PStr row)) t.

(** A row whose cells, when it is a list, are all different from [None]. *)
Definition has_no_None_cell (row : pyval) : bool :=
  forallb is_not_None (list_items row).

Definition is_fill_table_with_data (op : operation) : bool :=
  match op with
  | Fill_table_with_data _ _ _ _ => true
  | _ => false
  end.


(** The most calls an operation makes on the controller. *)
Definition max_calls (op : operation) : nat :=
  if is_create_table_with_data op then 2%nat else 1%nat.

Definition level_eqb (a b : log_level) : bool :=
  match a, b with
  | INFO, INFO => true
  | WARNING, WARNING => true
  | ERROR, ERROR => true
  | _, _ => false
  end.

(** The number of records of a level in a log. *)
Definition count_level (level : log_level) (lg : list log_record) : nat :=
  List.length (filter (fun r => level_eqb (log_level_of r) level) lg).

(** The number of rows that are not lists. *)
Definition count_non_list (rows : list pyval) : nat :=
  List.length (filter (fun row => negb (is_list row)) rows).

(** The reply of the last call of a trace. *)
Definition last_reply (evs : list event) : option reply :=
  match rev evs with
  | (_, r) :: _ => Some r
  | [] => None
  end.

(** A value whose integers all have a text: no [int] of more than 4300
    digits in it, at any depth. *)
Fixpoint within_limit (v : pyval) : bool :=
  match v with
  | PInt z => printable z
  | PList items => forallb within_limit items
  | PDict items => forallb (fun kv => within_limit (snd kv)) items
  | PNone | PBool _ | PFloat _ | PStr _ => true
  end.

(** An operation whose integer arguments all have a text and whose rows,
    when it is given rows, are within the limit. *)
Definition printable_arguments (op : operation) : bool :=
  match op with
  | Insert_table rows cols => printable rows && printable cols
  | Set_cell_text row col _ => printable row && printable col
  | Merge_cells start_row start_col end_row end_col =>
      printable start_row && printable start_col
      && printable end_row && printable end_col
  | Get_cell_text row col => printable row && printable col
  | Create_table_with_data rows cols _ _ => printable rows && printable cols
  | Fill_table_with_data data_list start_row start_col _ =>
      printable start_row && printable start_col
      && match data_list with
         | Some rows => forallb within_limit rows
         | None => true
         end
  | _ => true
  end.

(** An integer of 4301 digits. *)
Definition too_long : Z := 10 ^ max_str_digits.

(** More example values for the closed instances. *)
Module MoreExamples.

(** A [KeyboardInterrupt]: a [BaseException] outside [Exception]; its
    [str] is empty. *)
Definition interrupt : exn := mk_exn BaseExceptionOnly EmptyString.

(** [Json.loads] under a budget of scanner calls, as an interpreter with a
    recursion limit runs it: nesting deeper than the budget ends in a
    [RecursionError], which is not a [JSONDecodeError]. *)
Definition loads_within (budget : nat) (s : string) : outcome pyval :=
  let doc := Json.code_points s in
  match doc with
  | 65279%N :: _ =>
      Raise (Json.decode_error
               "Unexpected UTF-8 BOM (decode using utf-8-sig)" doc 0)
  | _ =>
      let (r0, p0) := Json.skip_whitespace doc 0%N in
      match Json.scan_once budget r0 p0 with
      | Json.Scanned v r1 p1 =>
          let (r2, p2) := Json.skip_whitespace r1 p1 in
          match r2 with
          | [] => Ret v
          | _ :: _ => Raise (Json.decode_error "Extra data" doc p2)
          end
      | Json.StopIteration p =>
          Raise (Json.decode_error "Expecting value" doc p)
      | Json.DecodeError msg p => Raise (Json.decode_error msg doc p)
      | Json.RecursionError =>
          Raise (mk_exn OtherException
                   "maximum recursion depth exceeded while decoding a JSON document")
      end
  end.

(** A table of strings with a header row. *)
Definition people : list (list string) := [["name"; "age"]; ["Kim"; "30"]].

(** The same table as a JSON text. *)
Definition people_doc : string :=
  "[[" ++ Examples.quoted "name" ++ "," ++ Examples.quoted "age" ++ "],["
       ++ Examples.quoted "Kim" ++ "," ++ Examples.quoted "30" ++ "]]".

End MoreExamples.

(** The text a handler puts before [str(e)] when the call [c] of the
    operation [op] raised [e]: the outer handlers say ["Error: "]; the
    inner handlers of [create_table_with_data], which guard the data step,
    say that the table was created. *)
Definition handler_prefix (op : operation) (c : call) (e : exn) : string :=
  if is_create_table_with_data op && is_fill_table_with_data_call c then
    if is_JSONDecodeError e then created_but ++ "JSON 데이터 파싱 오류: "
    else created_but ++ "데이터 입력 중 오류 발생: "
  else "Error: ".

(** The same choice for an exception of [json.loads]. *)
Definition json_handler_prefix (e : exn) : string :=
  if is_JSONDecodeError e then created_but ++ "JSON 데이터 파싱 오류: "
  else created_but ++ "데이터 입력 중 오류 발생: ".

(** The last record of a log. *)
Definition last_logged (lg : list log_record) : option log_record :=
  match rev lg with
  | r :: _ => Some r
  | [] => None
  end.

(** * Properties *)

Lemma is_Exception_int_too_long : is_Exception int_too_long = true.
Proof. reflexivity. Qed.

Lemma is_JSONDecodeError_int_too_long :
  is_JSONDecodeError int_too_long = false.
Proof. reflexivity. Qed.

Lemma printable_one : printable 1 = true.
Proof. reflexivity. Qed.


(** Unfolds the methods and the monad down to the calls on the controller. *)
Ltac unfold_methods :=
  cbv [call_method action_method operation_of
       insert_table set_cell_text merge_cells get_cell_text
       create_table_with_data fill_table_with_data
       insert_left_column insert_right_column insert_upper_row
       insert_lower_row move_to_left_cell move_to_right_cell
       move_to_upper_cell move_to_lower_cell merge_tables parse_table_data
       init set_controller
       try_except bind invoke ret lift format_int int_text
       logger_info logger_warning
       logger_error log hwp_controller find_handler truthy_str truthy_list
       ctl_state calls logs fst snd].

(** Resolves the handlers on the [ValueError] of an integer too long. *)
Ltac settle :=
  repeat (progress (rewrite ?is_Exception_int_too_long,
                            ?is_JSONDecodeError_int_too_long;
                    unfold_methods)).

(** Splits on whether the integers an f-string prints have a text. *)
Ltac print_cases :=
  repeat (match goal with
          | |- context [printable ?z] => destruct (printable z) eqn:?
          end; settle).

(** Splits on how the next call on the controller ends. *)
Ltac call_cases :=
  match goal with
  | |- context [HwpController.insert_table ?c ?a ?b ?s] =>
      destruct (HwpController.insert_table c a b s) as [[[|]|?e] ?st] eqn:?
  | |- context [HwpController.fill_table_cell ?c ?a ?b ?t ?s] =>
      destruct (HwpController.fill_table_cell c a b t s)
        as [[[|]|?e] ?st] eqn:?
  | |- context [HwpController.merge_table_cells ?c ?a ?b ?x ?y ?s] =>
      destruct (HwpController.merge_table_cells c a b x y s)
        as [[[|]|?e] ?st] eqn:?
  | |- context [HwpController.get_table_cell_text ?c ?a ?b ?s] =>
      destruct (HwpController.get_table_cell_text c a b s)
        as [[?text|?e] ?st] eqn:?
  | |- context [HwpController.fill_table_with_data ?c ?d ?a ?b ?h ?s] =>
      destruct (HwpController.fill_table_with_data c d a b h s)
        as [[[|]|?e] ?st] eqn:?
  | |- context [HwpController.run_action ?c ?a ?s] =>
      destruct (HwpController.run_action c a s) as [[[|]|?e] ?st] eqn:?
  end.

(** Splits on the class of a raised exception. *)
Ltac handler_cases :=
  repeat match goal with
    | |- context [is_JSONDecodeError ?e] =>
        destruct (is_JSONDecodeError e) eqn:?
    | |- context [is_Exception ?e] => destruct (is_Exception e) eqn:?
    end.

(** Splits on what the decoder gave and on the shape checks. *)
Ltac json_cases :=
  match goal with
  | |- context [match ?j with Ret _ => _ | Raise _ => _ end] =>
      destruct j as [[| | | | |?items|]|?e] eqn:?
  end.

Ltac shape_cases :=
  repeat match goal with
    | |- context [(List.length ?l =? 0)%nat] =>
        destruct l; cbv [List.length Nat.eqb]
    | |- context [forallb is_list ?l] => destruct (forallb is_list l) eqn:?
    end.

Section Properties.

Context {St : Type}.
Variable json_loads : string -> outcome pyval.
Variable str_other : pyval -> string.

(** ** The trace and the log grow at the end *)

Lemma skipn_length_app {A : Type} (l evs : list A) :
  skipn (List.length l) (l ++ evs)%list = evs.
Proof. induction l; simpl; auto. Qed.

Lemma new_calls_app (w : World St) st evs lg :
  new_calls w (mk_world st (calls w ++ evs)%list lg) = evs.
Proof. apply skipn_length_app. Qed.

Lemma new_calls_same (w : World St) st lg :
  new_calls w (mk_world st (calls w) lg) = [].
Proof. unfold new_calls; simpl. apply skipn_all. Qed.

Lemma new_logs_app (w : World St) st cs lg :
  new_logs w (mk_world st cs (logs w ++ lg)%list) = lg.
Proof. apply skipn_length_app. Qed.

(** ** Strings *)

Lemma prefix_app (p s : string) : prefix p (p ++ s) = true.
Proof.
  induction p as [|c p IH]; simpl.
  - now destruct s.
  - destruct (Ascii.ascii_dec c c) as [_|N]; [exact IH | now elim N].
Qed.

Lemma is_error_string_app (s : string) :
  is_error_string ("Error: " ++ s) = true.
Proof. apply prefix_app. Qed.

Lemma created_but_app (s : string) :
  prefix created_but (created_but ++ s) = true.
Proof. apply prefix_app. Qed.

(** ** The loop of [fill_table_with_data] *)

(** The loop never raises and never touches the controller: it returns the
    converted rows in order and logs one warning per row that is not a
    list. *)
Lemma process_rows_eq (rows : list pyval) (acc : list (list string))
  (w : World St) :
  process_rows str_other rows acc w
  = (Ret (acc ++ map (filled_row str_other) rows)%list,
     mk_world (ctl_state w) (calls w) (logs w ++ row_warnings rows)%list).
Proof.
  revert acc w. induction rows as [|row rows IH]; intros acc w.
  - destruct w; simpl. cbv [ret]. now rewrite !app_nil_r.
  - simpl. cbv [bind]. unfold filled_row at 1.
    destruct (is_list row) eqn:L; simpl.
    + cbv [ret]. rewrite IH. rewrite <- app_assoc. reflexivity.
    + cbv [logger_warning log ret bind]. rewrite IH; simpl.
      rewrite <- !app_assoc. reflexivity.
Qed.

(** Everything [create_table_with_data] can do on a controller. *)
Ltac create_cases w :=
  match goal with
  | |- context [Create_table_with_data _ _ ?d _] => destruct d as [[|? ?]|]
  end;
  unfold_methods; call_cases; cbv [negb];
  try (json_cases; shape_cases; cbv [negb]; try call_cases);
  print_cases; handler_cases; cbv [fst snd reply_of];
  rewrite <- ?app_assoc; cbn [app];
  rewrite ?(new_calls_app w), ?(new_logs_app w).

(** Everything [fill_table_with_data] can do on a controller. *)
Ltac fill_cases w :=
  match goal with
  | |- context [Fill_table_with_data ?dl] => destruct dl as [[|? ?]|]
  end;
  unfold_methods; print_cases; rewrite ?process_rows_eq;
  cbv [ctl_state calls logs];
  try call_cases; handler_cases; cbv [fst snd reply_of];
  rewrite <- ?app_assoc; cbn [app];
  rewrite ?(new_calls_app w), ?(new_calls_same w), ?(new_logs_app w).

(** Everything an operation with a single call can do. *)
Ltac single_call_cases w :=
  unfold_methods; call_cases; print_cases; handler_cases;
  cbv [fst snd reply_of];
  rewrite ?(new_calls_app w), ?(new_logs_app w).

(** With no controller every operation stops at its guard. *)
Lemma call_method_not_set (op : operation) (w : World St) :
  call_method json_loads str_other (init None) op w
  = (Ret "Error: HWP Controller is not set", w).
Proof. destruct op; reflexivity. Qed.

(** ** Results of the operations *)

Ltac solve_status :=
  first [ apply status_error; first [reflexivity | apply is_error_string_app]
        | apply status_success;
          [first [left; reflexivity | right; left; reflexivity] | reflexivity]
        | apply status_refusal; left; reflexivity
        | eapply status_cell_text; reflexivity
        | apply status_created_but;
          [reflexivity | first [reflexivity | apply created_but_app]] ].

(** C1 (as amended): every public operation, in every outcome, returns a
    string unless the controller or the decoder raised something that is
    not an [Exception]; the string is an ["Error: <message>"] string, the
    operation's success message after calls that all answered, a refusal
    message without the prefix (the "... 실패" messages of [set_cell_text],
    [merge_cells], [fill_table_with_data] and the nine action operations),
    a message of [create_table_with_data] that starts with "표는 생성되었으나",
    or, for [get_cell_text], the text the controller returned. *)
Theorem call_method_status (self : HwpTableTools St) (op : operation)
  (w : World St) :
  let run := call_method json_loads str_other self op w in
  match fst run with
  | Ret s => status op (new_calls w (snd run)) s
  | Raise e => is_Exception e = false
  end.
Proof.
  destruct self as [[ctl|]].
  2:{ cbv zeta. change (mk_tools None) with (@init St None).
      rewrite call_method_not_set. cbn [fst snd].
      apply status_error. reflexivity. }
  destruct w as [st cs lg]. cbv zeta.
  destruct op.
  1-4,7-15: single_call_cases (mk_world st cs lg); auto; solve_status.
  - create_cases (mk_world st cs lg); auto; solve_status.
  - fill_cases (mk_world st cs lg); auto; solve_status.
Qed.

(** C3: with no controller set, every public operation returns the error
    string "Error: HWP Controller is not set", which contains "not set";
    it returns (it does not raise), makes no call on the controller and
    leaves the world as it was. *)
Theorem controller_not_set (op : operation) (w : World St) :
  let run := call_method json_loads str_other (init None) op w in
  run = (Ret "Error: HWP Controller is not set", w)
  /\ contains "not set" "Error: HWP Controller is not set" = true
  /\ is_error_string "Error: HWP Controller is not set" = true
  /\ new_calls w (snd run) = [].
Proof.
  cbv zeta. rewrite call_method_not_set. repeat split.
  destruct w; apply new_calls_same.
Qed.

(** ** Exceptions *)

Lemma last_logged_snoc (a : log_record) (lg : list log_record)
  (r : log_record) :
  last_logged (a :: lg ++ [r])%list = Some r.
Proof.
  unfold last_logged. change (a :: lg ++ [r])%list with ((a :: lg) ++ [r])%list.
  now rewrite rev_unit.
Qed.

Ltac solve_caught :=
  rewrite ?last_logged_snoc;
  unfold last_raised, last_logged; cbn [rev app];
  let c := fresh "c" in
  let e := fresh "e" in
  let H := fresh in
  let C := fresh in
  intros c e H C;
  first
    [ discriminate H
    | injection H as <- <-;
      first
        [ congruence
        | unfold handler_prefix;
          cbn [is_create_table_with_data is_fill_table_with_data_call andb];
          repeat match goal with
            | J : is_JSONDecodeError ?x = _
              |- context [is_JSONDecodeError ?x] => rewrite J
            end;
          split; [ reflexivity | eexists; eexists; reflexivity ] ] ].

(** No [Exception] leaves a method, and an [Exception] raised by the last
    call on the controller is logged as an error and turned into a string
    that ends with [str(e)]. *)
Lemma caught_calls (self : HwpTableTools St) (op : operation) (w : World St) :
  let run := call_method json_loads str_other self op w in
  (forall e, fst run = Raise e -> is_Exception e = false)
  /\ (forall c e,
        last_raised (new_calls w (snd run)) = Some (c, e) ->
        is_Exception e = true ->
        fst run = Ret (handler_prefix op c e ++ exn_str e)
        /\ exists msg exc_info,
             last_logged (new_logs w (snd run))
             = Some (mk_log ERROR (msg ++ exn_str e) exc_info)).
Proof.
  destruct self as [[ctl|]].
  2:{ cbv zeta. change (mk_tools None) with (@init St None).
      rewrite call_method_not_set. cbn [fst snd].
      split; [discriminate|]. destruct w; rewrite new_calls_same.
      intros ? ? [=]. }
  destruct w as [st cs lg]. cbv zeta.
  destruct op.
  1-4,7-15: single_call_cases (mk_world st cs lg);
    (split; [ intros ?; first [discriminate | congruence] | solve_caught ]).
  - create_cases (mk_world st cs lg);
    (split; [ intros ?; first [discriminate | congruence] | solve_caught ]).
  - fill_cases (mk_world st cs lg);
    (split; [ intros ?; first [discriminate | congruence] | solve_caught ]).
Qed.

(** An [Exception] of the decoder in [create_table_with_data], after the
    table was created, is logged and reported as a created-but message;
    nothing more is asked of the controller. *)
Lemma create_table_with_data_json_exception (ctl : HwpController.t St)
  (rows cols : Z) (d : string) (has_header : bool) (w : World St)
  (st1 : St) (e : exn) :
  HwpController.insert_table ctl rows cols (ctl_state w) = (Ret true, st1) ->
  d <> "" ->
  json_loads d = Raise e ->
  is_Exception e = true ->
  let run :=
    create_table_with_data json_loads str_other (mk_tools (Some ctl))
      rows cols (Some d) has_header w in
  fst run = Ret (json_handler_prefix e ++ exn_str e)
  /\ new_calls w (snd run) = [(InsertTable rows cols, ReturnedBool true)]
  /\ exists msg exc_info,
       last_logged (new_logs w (snd run))
       = Some (mk_log ERROR (msg ++ exn_str e) exc_info).
Proof.
  intros Hins Hd Hjson Hexn. destruct d as [|ch d]; [congruence|].
  destruct w as [st cs lg]. cbn [ctl_state] in Hins.
  unfold_methods. rewrite Hins. cbv [negb]. rewrite Hjson.
  unfold json_handler_prefix.
  destruct (is_JSONDecodeError e) eqn:J; [|rewrite Hexn];
    cbv [fst snd reply_of]; rewrite <- ?app_assoc; cbn [app];
    rewrite (new_calls_app (mk_world st cs lg)),
            (new_logs_app (mk_world st cs lg));
    (split; [reflexivity|]); (split; [reflexivity|]);
    unfold last_logged; cbn [rev app]; eexists; eexists; reflexivity.
Qed.

(** [parse_table_data] on a text the decoder rejects: the error is logged
    and the result is the empty list. *)
Lemma parse_table_data_decode_error (s : string) (e : exn) (w : World St) :
  json_loads s = Raise e ->
  is_JSONDecodeError e = true ->
  parse_table_data json_loads str_other s w
  = (Ret [],
     mk_world (ctl_state w) (calls w)
       (logs w ++ [mk_log ERROR ("표 데이터 파싱 오류: " ++ exn_str e) false])%list).
Proof.
  intros Hjson J. unfold_methods. rewrite Hjson, J. reflexivity.
Qed.

(** C4 (as amended): no [Exception] raised by the controller or by the
    decoder leaves a method of [HwpTableTools]: it is caught, logged at
    error level, and turned into a string that ends with [str(e)].  The
    string is ["Error: " + str(e)], except in [create_table_with_data]
    once the table was created, where it is "표는 생성되었으나 JSON 데이터 파싱
    오류: " or "표는 생성되었으나 데이터 입력 중 오류 발생: " followed by
    [str(e)].  [parse_table_data] catches a [JSONDecodeError], logs it and
    returns the empty list, not a string. *)
Theorem exceptions_become_results :
  (forall (self : HwpTableTools St) (op : operation) (w : World St),
      let run := call_method json_loads str_other self op w in
      (forall e, fst run = Raise e -> is_Exception e = false)
      /\ (forall c e,
            last_raised (new_calls w (snd run)) = Some (c, e) ->
            is_Exception e = true ->
            fst run = Ret (handler_prefix op c e ++ exn_str e)
            /\ exists msg exc_info,
                 last_logged (new_logs w (snd run))
                 = Some (mk_log ERROR (msg ++ exn_str e) exc_info)))
  /\ (forall (ctl : HwpController.t St) rows cols d has_header
        (w : World St) st1 e,
        HwpController.insert_table ctl rows cols (ctl_state w)
        = (Ret true, st1) ->
        d <> "" ->
        json_loads d = Raise e ->
        is_Exception e = true ->
        let run :=
          create_table_with_data json_loads str_other (mk_tools (Some ctl))
            rows cols (Some d) has_header w in
        fst run = Ret (json_handler_prefix e ++ exn_str e)
        /\ exists msg exc_info,
             last_logged (new_logs w (snd run))
             = Some (mk_log ERROR (msg ++ exn_str e) exc_info))
  /\ (forall s e (w : World St),
        json_loads s = Raise e ->
        is_JSONDecodeError e = true ->
        let run := parse_table_data json_loads str_other s w in
        fst run = Ret []
        /\ last_logged (new_logs w (snd run))
           = Some (mk_log ERROR ("표 데이터 파싱 오류: " ++ exn_str e) false)).
Proof.
  split; [|split].
  - intros self op w. apply caught_calls.
  - intros ctl rows cols d has_header w st1 e Hins Hd Hjson Hexn.
    destruct (create_table_with_data_json_exception ctl rows cols d
                has_header w st1 e Hins Hd Hjson Hexn) as (R & _ & L).
    split; assumption.
  - intros s e w Hjson J. cbv zeta.
    rewrite (parse_table_data_decode_error s e w Hjson J). cbn [fst snd].
    split; [reflexivity|]. destruct w as [st cs lg]. cbn [ctl_state calls logs].
    rewrite (new_logs_app (mk_world st cs lg)). reflexivity.
Qed.

(** ** [parse_table_data] *)

(** C2 (as amended): [parse_table_data] returns the empty list when the
    text is malformed JSON, when it decodes to something that is not a
    list, and when it decodes to the empty list.  A row that is not a list
    does not empty the result: the result has one row per element of the
    decoded list, a list row converted cell by cell and any other row kept
    as the single cell [str(row)]. *)
Theorem parse_table_data_rows (s : string) (w : World St) :
  let r := fst (parse_table_data json_loads str_other s w) in
  (forall e,
      json_loads s = Raise e -> is_JSONDecodeError e = true -> r = Ret [])
  /\ (forall v, json_loads s = Ret v -> is_list v = false -> r = Ret [])
  /\ (forall rows,
        json_loads s = Ret (PList rows) ->
        exists t,
          r = Ret t
          /\ List.length t = List.length rows
          /\ (t = [] <-> rows = [])
          /\ (forall i row,
                nth_error rows i = Some row ->
                nth_error t i
                = Some (if is_list row
                        then map (cell_text str_other) (list_items row)
                        else [str str_other row]))).
Proof.
  cbv zeta. split; [|split].
  - intros e Hjson J.
    now rewrite (parse_table_data_decode_error s e w Hjson J).
  - intros v Hjson L. unfold_methods. rewrite Hjson.
    destruct v; try reflexivity. discriminate L.
  - intros rows Hjson. exists (map (parsed_row str_other) rows).
    unfold_methods. rewrite Hjson. repeat split.
    + apply length_map.
    + intros E. now destruct rows.
    + now intros ->.
    + intros i row Hrow.
      now apply (map_nth_error (parsed_row str_other)).
Qed.

(** On a text that decodes to a list, the rows come back in order and the
    world is left as it was. *)
Lemma parse_table_data_decoded (s : string) (rows : list pyval)
  (w : World St) :
  json_loads s = Ret (PList rows) ->
  parse_table_data json_loads str_other s w
  = (Ret (map (parsed_row str_other) rows), w).
Proof. intros Hjson. unfold_methods. now rewrite Hjson. Qed.

(** ** [create_table_with_data] *)


(** ** The runs of [fill_table_with_data] with data *)

(** On a list with at least one row, when the start cell can be printed:
    the greeting, the warnings of the loop, one call, and the record and
    result that the reply of the call decides. *)
Lemma fill_table_with_data_exec (ctl : HwpController.t St) (row : pyval)
  (rows : list pyval) (start_row start_col : Z) (has_header : bool)
  (w : World St) :
  printable start_row = true ->
  printable start_col = true ->
  let t := map (filled_row str_other) (row :: rows) in
  let reply :=
    HwpController.fill_table_with_data ctl t start_row start_col has_header
      (ctl_state w) in
  fill_table_with_data str_other (mk_tools (Some ctl)) (Some (row :: rows))
    start_row start_col has_header w
  = (match fst reply with
     | Ret true => Ret "표 데이터 입력 완료"
     | Ret false => Ret "표 데이터 입력 실패"
     | Raise e =>
         if is_Exception e then Ret ("Error: " ++ exn_str e) else Raise e
     end,
     mk_world (snd reply)
       (calls w
          ++ [(FillTableWithData t start_row start_col has_header,
               reply_of ReturnedBool (fst reply))])%list
       (logs w
          ++ mk_log INFO
               ("Filling table with data: "
                  ++ str_int (Z.of_nat (List.length (row :: rows)))
                  ++ " rows, starting at (" ++ str_int start_row ++ ", "
                  ++ str_int start_col ++ ")") false
             :: row_warnings (row :: rows)
          ++ match fst reply with
             | Ret true => [mk_log INFO "표 데이터 입력 완료" false]
             | Ret false =>
                 [mk_log ERROR "hwp_controller.fill_table_with_data 호출 실패"
                    false]
             | Raise e =>
                 if is_Exception e
                 then [mk_log ERROR ("표 데이터 입력 중 오류: " ++ exn_str e)
                         true]
                 else []
             end)%list).
Proof.
  intros Hr Hc. cbv zeta. destruct w as [st cs lg].
  unfold_methods. rewrite Hr, Hc. unfold_methods.
  rewrite process_rows_eq. cbv [ctl_state calls logs].
  cbn [app].
  call_cases; handler_cases; cbv [fst snd reply_of];
    rewrite <- ?app_assoc; cbn [app]; rewrite ?app_nil_r; reflexivity.
Qed.

(** When the start row or the start column has too many digits to print,
    the greeting fails before the loop: no call is made, and the
    [ValueError] is logged and returned as an error string. *)
Lemma fill_table_with_data_too_long (ctl : HwpController.t St) (row : pyval)
  (rows : list pyval) (start_row start_col : Z) (has_header : bool)
  (w : World St) :
  printable start_row = false \/ printable start_col = false ->
  fill_table_with_data str_other (mk_tools (Some ctl)) (Some (row :: rows))
    start_row start_col has_header w
  = (Ret ("Error: " ++ exn_str int_too_long),
     mk_world (ctl_state w) (calls w)
       (logs w
          ++ [mk_log ERROR ("표 데이터 입력 중 오류: " ++ exn_str int_too_long)
                true])%list).
Proof.
  intros H. destruct w as [st cs lg]. unfold_methods.
  destruct (printable start_row); [|settle; reflexivity].
  destruct H as [H|H]; [discriminate H|]. rewrite H. settle. reflexivity.
Qed.

(** ** The operations that fire one named action *)

(** C6: with a controller set, each row/column insertion, cell navigation
    and table merge operation calls [run_action] exactly once, with its
    own fixed action string, and nothing else; it returns its success
    message if and only if that call returned [True], its failure message
    when the call returned [False], and ["Error: " + str(e)] when the call
    raised an [Exception]. *)
Theorem table_action_runs_once (a : table_action) (ctl : HwpController.t St)
  (w : World St) :
  let reply := HwpController.run_action ctl (action_name a) (ctl_state w) in
  let run := action_method a (mk_tools (Some ctl)) w in
  run = call_method json_loads str_other (mk_tools (Some ctl))
          (operation_of a) w
  /\ new_calls w (snd run)
     = [(RunAction (action_name a), reply_of ReturnedBool (fst reply))]
  /\ ctl_state (snd run) = snd reply
  /\ (fst run = Ret (action_success a) <-> fst reply = Ret true)
  /\ (fst reply = Ret false -> fst run = Ret (action_failure a))
  /\ (forall e,
        fst reply = Raise e -> is_Exception e = true ->
        fst run = Ret ("Error: " ++ exn_str e))
  /\ action_success a <> action_failure a.
Proof.
  cbv zeta. split; [destruct a; reflexivity|].
  destruct w as [st cs lg].
  destruct a; unfold_methods; cbv [action_name action_success action_failure];
  call_cases; handler_cases; cbv [fst snd reply_of];
  rewrite ?(new_calls_app (mk_world st cs lg));
  (split; [reflexivity|]); (split; [reflexivity|]).
  all: repeat split; try congruence; try discriminate.
  all: try (intros e' [= <-]; congruence).
  all: try (intros e' [= <-]; intros; reflexivity).
Qed.

(** ** Cells *)




(** ** Missing data *)

(** C10: [fill_table_with_data] on a [data_list] that is [None] or empty
    invokes no method of the controller and leaves the world as it was,
    whether a controller is set or not; when a controller is set, it
    returns "Error: Data is required". *)
Theorem fill_table_with_data_requires_data (self : HwpTableTools St)
  (data_list : option (list pyval)) (start_row start_col : Z)
  (has_header : bool) (w : World St) :
  data_list = None \/ data_list = Some [] ->
  let run :=
    fill_table_with_data str_other self data_list start_row start_col
      has_header w in
  new_calls w (snd run) = []
  /\ snd run = w
  /\ (forall ctl,
        hwp_controller self = Some ctl ->
        fst run = Ret "Error: Data is required").
Proof.
  intros Hdata. cbv zeta.
  assert (E : snd (fill_table_with_data str_other self data_list start_row
                     start_col has_header w) = w)
    by (destruct self as [[ctl|]]; destruct Hdata as [-> | ->]; reflexivity).
  rewrite E. split; [destruct w; apply new_calls_same|]. split; [reflexivity|].
  intros ctl Hctl. destruct self as [c]. cbn [hwp_controller] in Hctl.
  subst c. destruct Hdata as [-> | ->]; reflexivity.
Qed.

(** * Further properties *)

(** ** The operations with one call and arguments *)

(** X1: with a controller set, [insert_table] makes exactly one call,
    [insert_table(rows, cols)] with the two integers as given (no bounds
    are checked), and the controller is left as that call left it.  The
    result is "Error: Failed to insert table" on [False] and
    ["Error: " + str(e)] on an [Exception].  On [True] it is the success
    message when both integers have at most 4300 digits; otherwise the
    table is inserted all the same, but printing the integer fails and
    the error string of that [ValueError] is returned. *)
Theorem insert_table_forwards (ctl : HwpController.t St) (rows cols : Z)
  (w : World St) :
  let reply := HwpController.insert_table ctl rows cols (ctl_state w) in
  let run := insert_table (mk_tools (Some ctl)) rows cols w in
  new_calls w (snd run)
  = [(InsertTable rows cols, reply_of ReturnedBool (fst reply))]
  /\ ctl_state (snd run) = snd reply
  /\ (fst reply = Ret true ->
      printable rows = true -> printable cols = true ->
      fst run = Ret ("Table inserted with " ++ str_int rows ++ " rows and "
                       ++ str_int cols ++ " columns"))
  /\ (fst reply = Ret true ->
      printable rows = false \/ printable cols = false ->
      fst run = Ret ("Error: " ++ exn_str int_too_long))
  /\ (fst reply = Ret false -> fst run = Ret "Error: Failed to insert table")
  /\ (forall e,
        fst reply = Raise e -> is_Exception e = true ->
        fst run = Ret ("Error: " ++ exn_str e)).
Proof.
  cbv zeta. destruct w as [st cs lg].
  single_call_cases (mk_world st cs lg);
    (split; [reflexivity|]); (split; [reflexivity|]);
    repeat split; try discriminate; try reflexivity;
    try (intros _ [? | ?]; discriminate);
    intros e' [= <-]; congruence.
Qed.

(** X2: with a controller set, [set_cell_text] makes exactly one call,
    [fill_table_cell(row, col, text)] with its arguments as given.  When
    [row] and [col] have at most 4300 digits the result is "셀(row,
    col)에 텍스트 입력 완료" on [True] and the same with "실패" on
    [False]; on an [Exception] it is ["Error: " + str(e)]. *)
Theorem set_cell_text_forwards (ctl : HwpController.t St) (row col : Z)
  (text : string) (w : World St) :
  let reply :=
    HwpController.fill_table_cell ctl row col text (ctl_state w) in
  let run := set_cell_text (mk_tools (Some ctl)) row col text w in
  new_calls w (snd run)
  = [(FillTableCell row col text, reply_of ReturnedBool (fst reply))]
  /\ ctl_state (snd run) = snd reply
  /\ (fst reply = Ret true ->
      printable row = true -> printable col = true ->
      fst run = Ret ("셀(" ++ str_int row ++ ", " ++ str_int col
                       ++ ")에 텍스트 입력 완료"))
  /\ (fst reply = Ret false ->
      printable row = true -> printable col = true ->
      fst run = Ret ("셀(" ++ str_int row ++ ", " ++ str_int col
                       ++ ")에 텍스트 입력 실패"))
  /\ (forall e,
        fst reply = Raise e -> is_Exception e = true ->
        fst run = Ret ("Error: " ++ exn_str e)).
Proof.
  cbv zeta. destruct w as [st cs lg].
  single_call_cases (mk_world st cs lg);
    (split; [reflexivity|]); (split; [reflexivity|]);
    repeat split; try discriminate; try reflexivity;
    intros e' [= <-]; congruence.
Qed.

(** X3: with a controller set, [merge_cells] makes exactly one call,
    [merge_table_cells] with the four integers as given and in the order
    given (the range is not checked or normalised).  The result is "셀
    병합 실패" on [False] and ["Error: " + str(e)] on an [Exception]; on
    [True] it is the success message when the four integers have at most
    4300 digits. *)
Theorem merge_cells_forwards (ctl : HwpController.t St)
  (start_row start_col end_row end_col : Z) (w : World St) :
  let reply :=
    HwpController.merge_table_cells ctl start_row start_col end_row end_col
      (ctl_state w) in
  let run :=
    merge_cells (mk_tools (Some ctl)) start_row start_col end_row end_col w in
  new_calls w (snd run)
  = [(MergeTableCells start_row start_col end_row end_col,
      reply_of ReturnedBool (fst reply))]
  /\ ctl_state (snd run) = snd reply
  /\ (fst reply = Ret true ->
      printable start_row = true -> printable start_col = true ->
      printable end_row = true -> printable end_col = true ->
      fst run = Ret ("셀 병합 완료 (" ++ str_int start_row ++ ","
                       ++ str_int start_col ++ ") - (" ++ str_int end_row
                       ++ "," ++ str_int end_col ++ ")"))
  /\ (fst reply = Ret false -> fst run = Ret "셀 병합 실패")
  /\ (forall e,
        fst reply = Raise e -> is_Exception e = true ->
        fst run = Ret ("Error: " ++ exn_str e)).
Proof.
  cbv zeta. destruct w as [st cs lg].
  single_call_cases (mk_world st cs lg);
    (split; [reflexivity|]); (split; [reflexivity|]);
    repeat split; try discriminate; try reflexivity;
    intros e' [= <-]; congruence.
Qed.

(** X4: with a controller set, [get_cell_text] makes exactly one call,
    [get_table_cell_text(row, col)].  When the call returns and [row] and
    [col] have at most 4300 digits, it returns the text and logs one INFO
    record and no error; when one of them has more digits, the text is
    lost: it logs one ERROR record, no INFO record, and returns the error
    string of the [ValueError].  When the call raises an [Exception] it
    logs one ERROR record and returns ["Error: " + str(e)]. *)
Theorem get_cell_text_calls_once (ctl : HwpController.t St) (row col : Z)
  (w : World St) :
  let reply :=
    HwpController.get_table_cell_text ctl row col (ctl_state w) in
  let run := get_cell_text (mk_tools (Some ctl)) row col w in
  new_calls w (snd run)
  = [(GetTableCellText row col, reply_of ReturnedStr (fst reply))]
  /\ ctl_state (snd run) = snd reply
  /\ (forall text,
        fst reply = Ret text ->
        printable row = true -> printable col = true ->
        fst run = Ret text
        /\ count_level INFO (new_logs w (snd run)) = 1%nat
        /\ count_level ERROR (new_logs w (snd run)) = 0%nat)
  /\ (forall text,
        fst reply = Ret text ->
        printable row = false \/ printable col = false ->
        fst run = Ret ("Error: " ++ exn_str int_too_long)
        /\ count_level INFO (new_logs w (snd run)) = 0%nat
        /\ count_level ERROR (new_logs w (snd run)) = 1%nat)
  /\ (forall e,
        fst reply = Raise e -> is_Exception e = true ->
        fst run = Ret ("Error: " ++ exn_str e)
        /\ count_level ERROR (new_logs w (snd run)) = 1%nat).
Proof.
  cbv zeta. destruct w as [st cs lg].
  single_call_cases (mk_world st cs lg);
    (split; [reflexivity|]); (split; [reflexivity|]);
    (split; [|split]); intros x Hx; try discriminate Hx;
    injection Hx as <-;
    first [ intros C; congruence
          | intros [C | C]; discriminate C
          | intros C1 C2; discriminate
          | intros; repeat split; reflexivity ].
Qed.

(** ** [fill_table_with_data] with data *)


Lemma filled_row_strings (row : list string) :
  filled_row str_other (PList (map PStr row)) = row.
Proof.
  unfold filled_row; cbn [is_list list_items]. rewrite map_map.
  induction row as [|c row IH]; cbn [map]; [reflexivity|].
  now rewrite IH.
Qed.

Lemma filled_rows_strings (t : list (list string)) :
  map (filled_row str_other) (rows_of_strings t) = t.
Proof.
  unfold rows_of_strings. rewrite map_map.
  induction t as [|row t IH]; cbn [map]; [reflexivity|].
  now rewrite filled_row_strings, IH.
Qed.

Lemma count_level_app (level : log_level) (lg lg' : list log_record) :
  count_level level (lg ++ lg')%list
  = (count_level level lg + count_level level lg')%nat.
Proof. unfold count_level. now rewrite filter_app, length_app. Qed.

Lemma count_row_warnings (rows : list pyval) :
  count_level WARNING (row_warnings rows) = count_non_list rows
  /\ count_level ERROR (row_warnings rows) = 0%nat
  /\ count_level INFO (row_warnings rows) = 0%nat.
Proof.
  induction rows as [|row rows (IHw & IHe & IHi)]; [repeat split|].
  unfold row_warnings, count_non_list in *. cbn [flat_map filter].
  destruct (is_list row); cbn [negb app];
    [repeat split; assumption|].
  unfold count_level in *. cbn [filter log_level_of level_eqb List.length].
  repeat split; congruence.
Qed.


(** X6: a table of strings goes through [fill_table_with_data] unchanged:
    when every row is a list of [str] and the start row and the start
    column have at most 4300 digits, the table forwarded to the controller
    is the table given, and no warning is logged. *)
Theorem fill_table_with_data_keeps_strings (ctl : HwpController.t St)
  (t : list (list string)) (start_row start_col : Z) (has_header : bool)
  (w : World St) :
  t <> [] ->
  printable start_row = true ->
  printable start_col = true ->
  let run :=
    fill_table_with_data str_other (mk_tools (Some ctl))
      (Some (rows_of_strings t)) start_row start_col has_header w in
  (exists reply,
      new_calls w (snd run)
      = [(FillTableWithData t start_row start_col has_header, reply)])
  /\ count_level WARNING (new_logs w (snd run)) = 0%nat.
Proof.
  intros Ht Pr Pc. destruct t as [|row t]; [congruence|].
  cbv zeta. change (rows_of_strings (row :: t))
    with (PList (map PStr row) :: rows_of_strings t).
  rewrite (fill_table_with_data_exec _ _ _ _ _ _ _ Pr Pc). cbn [fst snd].
  change (PList (map PStr row) :: rows_of_strings t)
    with (rows_of_strings (row :: t)).
  rewrite filled_rows_strings.
  destruct w as [st cs lg]. cbn [calls logs].
  rewrite (new_calls_app (mk_world st cs lg)),
          (new_logs_app (mk_world st cs lg)).
  split; [eexists; reflexivity|].
  change (?a :: ?l ++ ?r)%list with ([a] ++ (l ++ r))%list.
  rewrite !count_level_app.
  destruct (count_row_warnings (rows_of_strings (row :: t))) as (W & _ & _).
  rewrite W.
  assert (N : count_non_list (rows_of_strings (row :: t)) = 0%nat).
  { unfold count_non_list, rows_of_strings.
    generalize (row :: t). intros l.
    induction l as [|x l IH]; [reflexivity|exact IH]. }
  rewrite N.
  match goal with
  | |- context [fst ?x] => destruct (fst x) as [[|]|e]
  end; try destruct (is_Exception e); reflexivity.
Qed.



(** ** [create_table_with_data] *)

(** X9: when the controller refuses to insert the table,
    [create_table_with_data] returns "Error: Failed to create table"
    whatever the data is: the data is not decoded, nothing is logged, and
    the refused [insert_table] is the only call. *)
Theorem create_table_with_data_refused (ctl : HwpController.t St)
  (rows cols : Z) (data : option string) (has_header : bool) (w : World St)
  (st1 : St) :
  HwpController.insert_table ctl rows cols (ctl_state w) = (Ret false, st1) ->
  create_table_with_data json_loads str_other (mk_tools (Some ctl))
    rows cols data has_header w
  = (Ret "Error: Failed to create table",
     mk_world st1
       (calls w ++ [(InsertTable rows cols, ReturnedBool false)])%list
       (logs w)).
Proof.
  intros Hins. destruct w as [st cs lg]. cbn [ctl_state] in Hins.
  unfold_methods. rewrite Hins. reflexivity.
Qed.

(** X10: without data ([None], or the empty string, which counts as no
    data) [create_table_with_data] only inserts the table: one call and,
    when [rows] and [cols] have at most 4300 digits, nothing logged and
    the message "표 생성 완료 (rows x cols 크기)". *)
Theorem create_table_with_data_without_data (ctl : HwpController.t St)
  (rows cols : Z) (data : option string) (has_header : bool) (w : World St)
  (st1 : St) :
  HwpController.insert_table ctl rows cols (ctl_state w) = (Ret true, st1) ->
  data = None \/ data = Some EmptyString ->
  let run :=
    create_table_with_data json_loads str_other (mk_tools (Some ctl))
      rows cols data has_header w in
  new_calls w (snd run) = [(InsertTable rows cols, ReturnedBool true)]
  /\ ctl_state (snd run) = st1
  /\ (printable rows = true ->
      printable cols = true ->
      run
      = (Ret ("표 생성 완료 (" ++ str_int rows ++ "x" ++ str_int cols
                ++ " 크기)"),
         mk_world st1
           (calls w ++ [(InsertTable rows cols, ReturnedBool true)])%list
           (logs w))).
Proof.
  intros Hins Hdata. destruct w as [st cs lg]. cbn [ctl_state] in Hins.
  cbv zeta.
  destruct Hdata as [-> | ->]; unfold_methods; rewrite Hins; unfold_methods;
    cbv [negb]; print_cases; cbv [fst snd reply_of];
    rewrite (new_calls_app (mk_world st cs lg));
    repeat split; intros; congruence.
Qed.

(** X11: when the table was inserted and the data decodes to a non-empty
    list of lists, [create_table_with_data] makes exactly two calls, in
    this order: the [insert_table], then [fill_table_with_data] on the
    state the insertion left, always from cell (1, 1) and with
    [has_header] as given.  The table forwarded has one row per decoded
    row and one cell per decoded cell; it is not compared with [rows] and
    [cols].  The result is "표는 생성되었으나 데이터 입력에 실패했습니다."
    on [False] and, when [rows] and [cols] have at most 4300 digits, the
    success message on [True]. *)
Theorem create_table_with_data_fills_from_first_cell
  (ctl : HwpController.t St) (rows cols : Z) (d : string)
  (has_header : bool) (w : World St) (st1 : St) (data_rows : list pyval) :
  HwpController.insert_table ctl rows cols (ctl_state w) = (Ret true, st1) ->
  d <> EmptyString ->
  json_loads d = Ret (PList data_rows) ->
  data_rows <> [] ->
  forallb is_list data_rows = true ->
  let t := str_rows str_other data_rows in
  let reply :=
    HwpController.fill_table_with_data ctl t 1 1 has_header st1 in
  let run :=
    create_table_with_data json_loads str_other (mk_tools (Some ctl))
      rows cols (Some d) has_header w in
  new_calls w (snd run)
  = [(InsertTable rows cols, ReturnedBool true);
     (FillTableWithData t 1 1 has_header, reply_of ReturnedBool (fst reply))]
  /\ ctl_state (snd run) = snd reply
  /\ List.length t = List.length data_rows
  /\ (forall i cells,
        nth_error data_rows i = Some (PList cells) ->
        exists row,
          nth_error t i = Some row
          /\ List.length row = List.length cells)
  /\ (fst reply = Ret true ->
      printable rows = true -> printable cols = true ->
      fst run = Ret ("표 생성 및 데이터 입력 완료 (" ++ str_int rows ++ "x"
                       ++ str_int cols ++ " 크기)"))
  /\ (fst reply = Ret false ->
      fst run = Ret "표는 생성되었으나 데이터 입력에 실패했습니다.").
Proof.
  intros Hins Hd Hjson Hne Hshape.
  destruct d as [|ch d]; [congruence|].
  destruct data_rows as [|r0 rows']; [congruence|].
  destruct w as [st cs lg]. cbn [ctl_state] in Hins. cbv zeta.
  unfold_methods. rewrite Hins. cbv [negb]. rewrite Hjson.
  cbv [List.length Nat.eqb]. rewrite Hshape.
  call_cases; print_cases; handler_cases; cbv [fst snd reply_of];
    rewrite <- ?app_assoc; cbn [app];
    rewrite (new_calls_app (mk_world st cs lg));
    (split; [reflexivity|]); (split; [reflexivity|]);
    (split; [apply length_map|]);
    (split;
     [ intros i cells Hcells; exists (map (str str_other) cells);
       split;
       [ exact (map_nth_error
                  (fun row => map (str str_other) (list_items row))
                  _ _ Hcells)
       | apply length_map ]
     | split; intros; first [discriminate | reflexivity] ]).
Qed.

Lemma cell_text_not_None (cell : pyval) :
  is_not_None cell = true -> cell_text str_other cell = str str_other cell.
Proof. intros H. unfold cell_text. now rewrite H. Qed.

Lemma conversions_agree (rows : list pyval) :
  forallb is_list rows = true ->
  forallb has_no_None_cell rows = true ->
  map (parsed_row str_other) rows = str_rows str_other rows
  /\ map (filled_row str_other) rows = str_rows str_other rows.
Proof.
  unfold str_rows.
  induction rows as [|row rows IH]; [now split|].
  cbn [forallb map]. intros [L Ls]%andb_prop [N Ns]%andb_prop.
  destruct (IH Ls Ns) as (IHp & IHf). rewrite IHp, IHf.
  assert (E : map (cell_text str_other) (list_items row)
              = map (str str_other) (list_items row)).
  { unfold has_no_None_cell in N. revert N.
    generalize (list_items row). intros cells.
    induction cells as [|c cells IHc]; [reflexivity|].
    cbn [forallb map]. intros [Hc Hcs]%andb_prop.
    now rewrite (cell_text_not_None c Hc), (IHc Hcs). }
  unfold parsed_row, filled_row. rewrite L, E. now split.
Qed.

(** X12: on a non-empty list of lists without a [None] cell the three entry
    points agree: the table [parse_table_data] returns is the table
    [fill_table_with_data] forwards for the decoded rows and the table
    [create_table_with_data] forwards for the text. *)
Theorem entry_points_agree (ctl : HwpController.t St) (n m : Z)
  (d : string) (has_header : bool) (w : World St) (st1 : St)
  (data_rows : list pyval) :
  HwpController.insert_table ctl n m (ctl_state w) = (Ret true, st1) ->
  d <> EmptyString ->
  json_loads d = Ret (PList data_rows) ->
  data_rows <> [] ->
  forallb is_list data_rows = true ->
  forallb has_no_None_cell data_rows = true ->
  exists t reply reply',
    fst (parse_table_data json_loads str_other d w) = Ret t
    /\ new_calls w
         (snd (fill_table_with_data str_other (mk_tools (Some ctl))
                 (Some data_rows) 1 1 has_header w))
       = [(FillTableWithData t 1 1 has_header, reply)]
    /\ new_calls w
         (snd (create_table_with_data json_loads str_other
                 (mk_tools (Some ctl)) n m (Some d) has_header w))
       = [(InsertTable n m, ReturnedBool true);
          (FillTableWithData t 1 1 has_header, reply')].
Proof.
  intros Hins Hd Hjson Hne Hshape Hnone.
  destruct (conversions_agree data_rows Hshape Hnone) as (Hp & Hf).
  exists (str_rows str_other data_rows),
    (reply_of ReturnedBool
       (fst (HwpController.fill_table_with_data ctl
               (str_rows str_other data_rows) 1 1 has_header (ctl_state w)))),
    (reply_of ReturnedBool
       (fst (HwpController.fill_table_with_data ctl
               (str_rows str_other data_rows) 1 1 has_header st1))).
  destruct d as [|ch d]; [congruence|].
  destruct data_rows as [|r0 rows']; [congruence|].
  rewrite (parse_table_data_decoded _ _ w Hjson), Hp.
  split; [reflexivity|].
  rewrite (fill_table_with_data_exec _ _ _ _ _ _ _ printable_one
             printable_one), Hf. cbn [fst snd].
  destruct w as [st cs lg]. cbn [ctl_state calls] in *.
  rewrite (new_calls_app (mk_world st cs lg)).
  split; [reflexivity|].
  unfold_methods. rewrite Hins. cbv [negb]. rewrite Hjson.
  cbv [List.length Nat.eqb]. rewrite Hshape.
  call_cases; print_cases; handler_cases; cbv [fst snd reply_of];
    rewrite <- ?app_assoc; cbn [app];
    rewrite (new_calls_app (mk_world st cs lg)); reflexivity.
Qed.

(** ** What every operation keeps *)

Ltac solve_grows :=
  eexists; eexists;
  split; [ first [reflexivity | symmetry; apply app_nil_r] |];
  split; [ first [reflexivity | symmetry; apply app_nil_r] |];
  cbn [List.length max_calls is_create_table_with_data];
  first [apply Nat.le_0_l | repeat constructor].

(** X13: an operation only adds to the trace and to the log (what was
    there stays, in order), and it never repeats a call: it makes at most
    one call on the controller, [create_table_with_data] at most two. *)
Theorem operations_only_append (self : HwpTableTools St) (op : operation)
  (w : World St) :
  let run := call_method json_loads str_other self op w in
  exists evs lg,
    calls (snd run) = (calls w ++ evs)%list
    /\ logs (snd run) = (logs w ++ lg)%list
    /\ (List.length evs <= max_calls op)%nat.
Proof.
  destruct self as [[ctl|]].
  2:{ cbv zeta. change (mk_tools None) with (@init St None).
      rewrite call_method_not_set. cbn [snd]. solve_grows. }
  destruct w as [st cs lg]. cbv zeta.
  destruct op.
  1-4,7-15: unfold_methods; call_cases; print_cases; handler_cases;
    cbv [fst snd reply_of]; rewrite <- ?app_assoc; cbn [app]; solve_grows.
  - match goal with
    | |- context [Create_table_with_data _ _ ?d _] => destruct d as [[|? ?]|]
    end;
    unfold_methods; call_cases; cbv [negb];
    try (json_cases; shape_cases; cbv [negb]; try call_cases);
    print_cases; handler_cases; cbv [fst snd reply_of];
    rewrite <- ?app_assoc; cbn [app]; solve_grows.
  - match goal with
    | |- context [Fill_table_with_data ?dl] => destruct dl as [[|? ?]|]
    end;
    unfold_methods; print_cases; rewrite ?process_rows_eq;
    cbv [ctl_state calls logs];
    try call_cases; handler_cases; cbv [fst snd reply_of];
    rewrite <- ?app_assoc; cbn [app]; solve_grows.
Qed.


(** ** [parse_table_data] *)

(** X15: [parse_table_data] never touches the controller: the controller's
    state and the trace of calls are as before, whatever the text.  It logs
    at most one record, and none when the text decodes to a list. *)
Theorem parse_table_data_leaves_controller (s : string) (w : World St) :
  let run := parse_table_data json_loads str_other s w in
  ctl_state (snd run) = ctl_state w
  /\ calls (snd run) = calls w
  /\ (exists lg,
        logs (snd run) = (logs w ++ lg)%list /\ (List.length lg <= 1)%nat)
  /\ (forall rows, json_loads s = Ret (PList rows) -> snd run = w).
Proof.
  cbv zeta. destruct w as [st cs lg]. unfold_methods.
  destruct (json_loads s) as [[| | | | |items|]|e]; handler_cases;
    cbv [fst snd];
    (split; [reflexivity|]); (split; [reflexivity|]);
    (split;
     [ eexists;
       split; [ first [reflexivity | symmetry; apply app_nil_r] |];
       cbn [List.length]; repeat constructor
     | intros rows H; first [discriminate H | reflexivity] ]).
Qed.

(** X16: [parse_table_data] catches a [JSONDecodeError] only: any other
    exception of the decoder leaves the function as it is, and nothing is
    logged. *)
Theorem parse_table_data_lets_other_exceptions_through (s : string)
  (e : exn) (w : World St) :
  json_loads s = Raise e ->
  is_JSONDecodeError e = false ->
  parse_table_data json_loads str_other s w = (Raise e, w).
Proof.
  intros Hjson J. unfold_methods. rewrite Hjson, J. reflexivity.
Qed.

(** ** What is logged *)

Lemma new_logs_same (w : World St) st cs :
  new_logs w (mk_world st cs (logs w)) = [].
Proof. unfold new_logs; simpl. apply skipn_all. Qed.

Ltac solve_refusal w :=
  rewrite ?(new_logs_same w);
  unfold last_reply; cbn [rev app];
  let H := fresh in
  intros H;
  first
    [ discriminate H
    | congruence
    | split;
      [ intros _; split; reflexivity
      | intros F; discriminate F ] ].

Ltac split_printable H :=
  cbn [printable_arguments] in H;
  repeat match type of H with
    | (_ && _)%bool = true =>
        let H' := fresh in
        apply andb_prop in H; destruct H as [H H']
    end.

(** X17: a refusal of the controller (a call that returns [False]) is
    logged by [fill_table_with_data] only, as the error
    "hwp_controller.fill_table_with_data 호출 실패"; every other operation
    whose integers can be printed reports the refusal in its result and
    logs neither an error nor a warning. *)
Theorem refusal_is_logged_by_fill_only (self : HwpTableTools St)
  (op : operation) (w : World St) :
  printable_arguments op = true ->
  let run := call_method json_loads str_other self op w in
  last_reply (new_calls w (snd run)) = Some (ReturnedBool false) ->
  (is_fill_table_with_data op = false ->
   count_level ERROR (new_logs w (snd run)) = 0%nat
   /\ count_level WARNING (new_logs w (snd run)) = 0%nat)
  /\ (is_fill_table_with_data op = true ->
      last_logged (new_logs w (snd run))
      = Some (mk_log ERROR "hwp_controller.fill_table_with_data 호출 실패"
                false)).
Proof.
  intros Hprint.
  destruct self as [[ctl|]].
  2:{ cbv zeta. change (mk_tools None) with (@init St None).
      rewrite call_method_not_set. cbn [snd].
      destruct w; rewrite new_calls_same. intros [=]. }
  destruct w as [st cs lg]. cbv zeta.
  destruct op; split_printable Hprint.
  1-4,7-15: single_call_cases (mk_world st cs lg);
    cbn [is_fill_table_with_data]; solve_refusal (mk_world st cs lg).
  - create_cases (mk_world st cs lg);
    cbn [is_fill_table_with_data]; solve_refusal (mk_world st cs lg).
  - destruct data_list as [[|row rows]|].
    1,3: unfold_methods; cbv [fst snd];
         rewrite (new_calls_same (mk_world st cs lg)); intros [=].
    cbv [call_method].
    rewrite (fill_table_with_data_exec _ _ _ _ _ _ _ Hprint H0).
    cbn [fst snd calls logs].
    rewrite (new_calls_app (mk_world st cs lg)),
            (new_logs_app (mk_world st cs lg)).
    unfold last_reply; cbn [rev app].
    match goal with
    | |- context [fst ?x] => destruct (fst x) as [[|]|e]
    end; cbn [reply_of]; intros [=].
    split; [intros [=]|]. intros _. apply last_logged_snoc.
Qed.

Ltac solve_escape w :=
  rewrite ?(new_logs_same w);
  unfold last_raised; cbn [rev app];
  let c := fresh "c" in
  let e := fresh "e" in
  let H := fresh in
  let C := fresh in
  intros c e H C;
  first
    [ discriminate H
    | injection H as <- <-;
      first
        [ congruence
        | split; reflexivity
        | match goal with
          | J : is_JSONDecodeError ?x = true |- _ =>
              destruct x as [[| |] ?]; discriminate
          end ] ].

(** X18: a [BaseException] that is not an [Exception] (a
    [KeyboardInterrupt], a [SystemExit]) raised by a call on the
    controller is not caught: it leaves the operation as it is, and no
    error is logged. *)
Theorem base_exception_escapes (self : HwpTableTools St) (op : operation)
  (w : World St) :
  let run := call_method json_loads str_other self op w in
  forall c e,
    last_raised (new_calls w (snd run)) = Some (c, e) ->
    is_Exception e = false ->
    fst run = Raise e
    /\ count_level ERROR (new_logs w (snd run)) = 0%nat.
Proof.
  destruct self as [[ctl|]].
  2:{ cbv zeta. change (mk_tools None) with (@init St None).
      rewrite call_method_not_set. cbn [snd].
      destruct w; rewrite new_calls_same. intros ? ? [=]. }
  destruct w as [st cs lg]. cbv zeta.
  destruct op.
  1-4,7-15: single_call_cases (mk_world st cs lg);
    solve_escape (mk_world st cs lg).
  - create_cases (mk_world st cs lg); solve_escape (mk_world st cs lg).
  - destruct data_list as [[|row rows]|].
    1,3: unfold_methods; cbv [fst snd];
         rewrite (new_calls_same (mk_world st cs lg)); intros ? ? [=].
    cbv [call_method].
    destruct (printable start_row) eqn:Pr;
      [destruct (printable start_col) eqn:Pc|].
    2: rewrite (fill_table_with_data_too_long _ _ _ _ _ _ _
                  (or_intror Pc)).
    3: rewrite (fill_table_with_data_too_long _ _ _ _ _ _ _
                  (or_introl Pr)).
    2,3: cbn [fst snd ctl_state calls logs];
         rewrite (new_calls_same (mk_world st cs lg)); intros ? ? [=].
    rewrite (fill_table_with_data_exec _ _ _ _ _ _ _ Pr Pc).
    cbn [fst snd calls logs].
    rewrite (new_calls_app (mk_world st cs lg)),
            (new_logs_app (mk_world st cs lg)).
    unfold last_raised; cbn [rev app].
    match goal with
    | |- context [fst ?x] => destruct (fst x) as [[|]|e]
    end; cbn [reply_of]; intros c e' [=]. subst. intros C. rewrite C.
    split; [reflexivity|].
    change (?a :: ?l ++ ?r)%list with ([a] ++ (l ++ r))%list.
    rewrite !count_level_app.
    destruct (count_row_warnings (row :: rows)) as (_ & E & _).
    now rewrite E.
Qed.

End Properties.

(** * Closed instances

    The statements above at the reference decoder [Json.loads], the
    reference printer [Builtins.repr] and the example controllers. *)

(** C7: [parse_table_data] on the text [[["a","b"],["c","d"]]] (spelled
    out below by its character codes) returns two rows of two string
    cells, "a","b" and "c","d"; it logs nothing. *)
Theorem parse_table_data_two_by_two {St : Type} (w : World St) :
  map nat_of_ascii (list_ascii_of_string Examples.two_by_two)
  = [91; 91; 34; 97; 34; 44; 34; 98; 34; 93; 44;
     91; 34; 99; 34; 44; 34; 100; 34; 93; 93]%nat
  /\ parse_table_data Json.loads Builtins.repr Examples.two_by_two w
     = (Ret [["a"; "b"]; ["c"; "d"]], w)
  /\ List.length [["a"; "b"]; ["c"; "d"]] = 2%nat
  /\ map (@List.length string) [["a"; "b"]; ["c"; "d"]] = [2%nat; 2%nat].
Proof.
  split; [reflexivity|]. split; [|split; reflexivity].
  rewrite (parse_table_data_decoded Json.loads Builtins.repr
             Examples.two_by_two
             [PList [PStr "a"; PStr "b"]; PList [PStr "c"; PStr "d"]]).
  - reflexivity.
  - vm_compute; reflexivity.
Qed.

(** C1, refuted as stated: [set_cell_text] on a controller that answers
    [False] returns "셀(1, 1)에 텍스트 입력 실패", which is neither the
    success message nor an ["Error: <message>"] string. *)
Lemma set_cell_text_refusal_has_no_error_prefix :
  call_method Json.loads Builtins.repr
    (mk_tools (Some (Examples.answering false "")))
    (Set_cell_text 1 1 "x") Examples.fresh
  = (Ret "셀(1, 1)에 텍스트 입력 실패",
     mk_world 1%nat [(FillTableCell 1 1 "x", ReturnedBool false)] [])
  /\ is_error_string "셀(1, 1)에 텍스트 입력 실패" = false
  /\ ~ In "셀(1, 1)에 텍스트 입력 실패"
         (success_messages (Set_cell_text 1 1 "x")).
Proof.
  split; [vm_compute; reflexivity|]. split; [vm_compute; reflexivity|].
  intros [H|[]]. apply String.eqb_eq in H. vm_compute in H.
  discriminate H.
Qed.

(** C2, refuted as stated: the text [[1]] is a list whose only row is not a
    list, and [parse_table_data] returns the one-cell row "1" for it, not
    the empty list. *)
Lemma parse_table_data_keeps_non_list_row :
  Json.loads "[1]" = Ret (PList [PInt 1])
  /\ is_list (PInt 1) = false
  /\ fst (parse_table_data Json.loads Builtins.repr "[1]" Examples.fresh)
     = Ret [["1"]]
  /\ fst (parse_table_data Json.loads Builtins.repr "[1]" Examples.fresh)
     <> Ret [].
Proof.
  assert (E : fst (parse_table_data Json.loads Builtins.repr "[1]"
                     Examples.fresh) = Ret [["1"]])
    by (vm_compute; reflexivity).
  split; [vm_compute; reflexivity|]. split; [reflexivity|].
  split; [exact E|]. rewrite E. discriminate.
Qed.

(** C4, refuted as stated: after the table was created, malformed JSON
    makes [create_table_with_data] return a string that does not start
    with "Error: "; and [parse_table_data] turns the same error into the
    empty list, not into a string. *)
Lemma create_table_with_data_json_error_has_no_error_prefix :
  Json.loads "{bad"
  = Raise (mk_exn JSONDecodeError
             "Expecting property name enclosed in double quotes: line 1 column 2 (char 1)")
  /\ fst (create_table_with_data Json.loads Builtins.repr
            (mk_tools (Some (Examples.answering true "")))
            2 2 (Some "{bad") false Examples.fresh)
     = Ret "표는 생성되었으나 JSON 데이터 파싱 오류: Expecting property name enclosed in double quotes: line 1 column 2 (char 1)"
  /\ is_error_string
       "표는 생성되었으나 JSON 데이터 파싱 오류: Expecting property name enclosed in double quotes: line 1 column 2 (char 1)"
     = false
  /\ fst (parse_table_data Json.loads Builtins.repr "{bad" Examples.fresh)
     = Ret [].
Proof.
  repeat split; vm_compute; reflexivity.
Qed.

(** The amended C2 at the texts [{bad], [3] and [[1]]. *)
Lemma parse_table_data_rows_witness :
  fst (parse_table_data Json.loads Builtins.repr "{bad" Examples.fresh)
  = Ret []
  /\ fst (parse_table_data Json.loads Builtins.repr "3" Examples.fresh)
     = Ret []
  /\ exists t,
       fst (parse_table_data Json.loads Builtins.repr "[1]" Examples.fresh)
       = Ret t
       /\ List.length t = 1%nat
       /\ nth_error t 0 = Some ["1"].
Proof.
  split; [|split].
  - eapply (proj1 (parse_table_data_rows Json.loads Builtins.repr "{bad"
                     Examples.fresh));
      vm_compute; reflexivity.
  - eapply (proj1 (proj2 (parse_table_data_rows Json.loads Builtins.repr "3"
                            Examples.fresh)));
      vm_compute; reflexivity.
  - destruct (proj2 (proj2 (parse_table_data_rows Json.loads Builtins.repr
                              "[1]" Examples.fresh)) [PInt 1])
      as (t & Ht & Hlen & _ & Hnth); [vm_compute; reflexivity|].
    exists t. split; [exact Ht|]. split; [exact Hlen|].
    exact (Hnth 0%nat (PInt 1) eq_refl).
Defined.

(** The amended C4 at a controller that raises, at malformed JSON after
    the table was created, and at [parse_table_data] on malformed JSON. *)
Lemma exceptions_become_results_witness :
  fst (call_method Json.loads Builtins.repr
         (mk_tools (Some (Examples.raising Examples.boom)))
         (Insert_table 2 3) Examples.fresh)
  = Ret "Error: boom"
  /\ fst (create_table_with_data Json.loads Builtins.repr
            (mk_tools (Some (Examples.answering true "")))
            2 2 (Some "{bad") false Examples.fresh)
     = Ret "표는 생성되었으나 JSON 데이터 파싱 오류: Expecting property name enclosed in double quotes: line 1 column 2 (char 1)"
  /\ fst (parse_table_data Json.loads Builtins.repr "{bad" Examples.fresh)
     = Ret [].
Proof.
  destruct (@exceptions_become_results nat Json.loads Builtins.repr)
    as (Hcall & Hjson & Hparse).
  split; [|split].
  - destruct (Hcall (mk_tools (Some (Examples.raising Examples.boom)))
                (Insert_table 2 3) Examples.fresh) as (_ & Hcaught).
    destruct (Hcaught (InsertTable 2 3) Examples.boom) as (R & _);
      [vm_compute; reflexivity | reflexivity |].
    exact R.
  - destruct (Hjson (Examples.answering true "") 2 2 "{bad" false
                Examples.fresh 1%nat
                (mk_exn JSONDecodeError
                   "Expecting property name enclosed in double quotes: line 1 column 2 (char 1)"))
      as (R & _);
      [reflexivity | discriminate | vm_compute; reflexivity | reflexivity |].
    exact R.
  - destruct (Hparse "{bad"
                (mk_exn JSONDecodeError
                   "Expecting property name enclosed in double quotes: line 1 column 2 (char 1)")
                Examples.fresh) as (R & _);
      [vm_compute; reflexivity | reflexivity |].
    exact R.
Defined.



(** C6 at [move_to_lower_cell], on a host that accepts and on a host that
    refuses. *)
Lemma table_action_runs_once_witness :
  fst (move_to_lower_cell (mk_tools (Some (Examples.answering true "")))
         Examples.fresh)
  = Ret "아래쪽 셀로 이동 완료"
  /\ new_calls Examples.fresh
       (snd (move_to_lower_cell (mk_tools (Some (Examples.answering true "")))
               Examples.fresh))
     = [(RunAction "TableLowerCell", ReturnedBool true)]
  /\ fst (move_to_lower_cell (mk_tools (Some (Examples.answering false "")))
            Examples.fresh)
     = Ret "아래쪽 셀로 이동 실패"
  /\ fst (move_to_lower_cell
            (mk_tools (Some (Examples.raising Examples.boom))) Examples.fresh)
     = Ret "Error: boom".
Proof.
  destruct (table_action_runs_once Json.loads Builtins.repr MoveToLowerCell
              (Examples.answering true "") Examples.fresh)
    as (_ & C & _ & S & _).
  destruct (table_action_runs_once Json.loads Builtins.repr MoveToLowerCell
              (Examples.answering false "") Examples.fresh)
    as (_ & _ & _ & _ & F & _).
  destruct (table_action_runs_once Json.loads Builtins.repr MoveToLowerCell
              (Examples.raising Examples.boom) Examples.fresh)
    as (_ & _ & _ & _ & _ & E & _).
  split; [apply (proj2 S); reflexivity|]. split; [exact C|].
  split; [apply F; reflexivity|].
  exact (E Examples.boom eq_refl eq_refl).
Defined.




(** C10 at an empty list. *)
Lemma fill_table_with_data_requires_data_witness :
  (@Some (list pyval) [] = None \/ @Some (list pyval) [] = Some [])
  /\ fst (fill_table_with_data Builtins.repr
            (mk_tools (Some (Examples.answering true ""))) (Some []) 1 1
            false Examples.fresh)
     = Ret "Error: Data is required"
  /\ new_calls Examples.fresh
       (snd (fill_table_with_data Builtins.repr
               (mk_tools (Some (Examples.answering true ""))) (Some []) 1 1
               false Examples.fresh))
     = [].
Proof.
  destruct (fill_table_with_data_requires_data Builtins.repr
              (mk_tools (Some (Examples.answering true ""))) (Some []) 1 1
              false Examples.fresh (or_intror eq_refl)) as (C & _ & R).
  split; [right; reflexivity|]. split; [|exact C].
  exact (R (Examples.answering true "") eq_refl).
Defined.

(** * Closed instances of the further properties *)

(** X1 at a host that accepts, one that refuses and one that raises, and
    at a row count of 4301 digits. *)
Lemma insert_table_forwards_witness :
  fst (insert_table (mk_tools (Some (Examples.answering true ""))) 3 (-1)
         Examples.fresh)
  = Ret "Table inserted with 3 rows and -1 columns"
  /\ new_calls Examples.fresh
       (snd (insert_table (mk_tools (Some (Examples.answering true "")))
               3 (-1) Examples.fresh))
     = [(InsertTable 3 (-1), ReturnedBool true)]
  /\ fst (insert_table (mk_tools (Some (Examples.answering false ""))) 3 (-1)
            Examples.fresh)
     = Ret "Error: Failed to insert table"
  /\ fst (insert_table (mk_tools (Some (Examples.raising Examples.boom)))
            3 (-1) Examples.fresh)
     = Ret "Error: boom"
  /\ fst (insert_table (mk_tools (Some (Examples.answering true "")))
            too_long 1 Examples.fresh)
     = Ret ("Error: " ++ exn_str int_too_long).
Proof.
  destruct (insert_table_forwards (Examples.answering true "") 3 (-1)
              Examples.fresh) as (C & _ & T & _).
  destruct (insert_table_forwards (Examples.answering false "") 3 (-1)
              Examples.fresh) as (_ & _ & _ & _ & F & _).
  destruct (insert_table_forwards (Examples.raising Examples.boom) 3 (-1)
              Examples.fresh) as (_ & _ & _ & _ & _ & E).
  destruct (insert_table_forwards (Examples.answering true "") too_long 1
              Examples.fresh) as (_ & _ & _ & L & _).
  split; [exact (T eq_refl eq_refl eq_refl)|]. split; [exact C|].
  split; [exact (F eq_refl)|].
  split; [exact (E Examples.boom eq_refl eq_refl)|].
  apply L; [reflexivity|]. left. vm_compute. reflexivity.
Defined.

(** X2 at a host that accepts, one that refuses and one that raises. *)
Lemma set_cell_text_forwards_witness :
  fst (set_cell_text (mk_tools (Some (Examples.answering true ""))) 0 7 "x"
         Examples.fresh)
  = Ret "셀(0, 7)에 텍스트 입력 완료"
  /\ new_calls Examples.fresh
       (snd (set_cell_text (mk_tools (Some (Examples.answering true "")))
               0 7 "x" Examples.fresh))
     = [(FillTableCell 0 7 "x", ReturnedBool true)]
  /\ fst (set_cell_text (mk_tools (Some (Examples.answering false ""))) 0 7
            "x" Examples.fresh)
     = Ret "셀(0, 7)에 텍스트 입력 실패"
  /\ fst (set_cell_text (mk_tools (Some (Examples.raising Examples.boom)))
            0 7 "x" Examples.fresh)
     = Ret "Error: boom".
Proof.
  destruct (set_cell_text_forwards (Examples.answering true "") 0 7 "x"
              Examples.fresh) as (C & _ & T & _).
  destruct (set_cell_text_forwards (Examples.answering false "") 0 7 "x"
              Examples.fresh) as (_ & _ & _ & F & _).
  destruct (set_cell_text_forwards (Examples.raising Examples.boom) 0 7 "x"
              Examples.fresh) as (_ & _ & _ & _ & E).
  split; [exact (T eq_refl eq_refl eq_refl)|]. split; [exact C|].
  split; [exact (F eq_refl eq_refl eq_refl)|].
  exact (E Examples.boom eq_refl eq_refl).
Defined.

(** X3 at a range given backwards, on a host that accepts, one that
    refuses and one that raises. *)
Lemma merge_cells_forwards_witness :
  fst (merge_cells (mk_tools (Some (Examples.answering true ""))) 3 3 1 1
         Examples.fresh)
  = Ret "셀 병합 완료 (3,3) - (1,1)"
  /\ new_calls Examples.fresh
       (snd (merge_cells (mk_tools (Some (Examples.answering true "")))
               3 3 1 1 Examples.fresh))
     = [(MergeTableCells 3 3 1 1, ReturnedBool true)]
  /\ fst (merge_cells (mk_tools (Some (Examples.answering false ""))) 3 3 1 1
            Examples.fresh)
     = Ret "셀 병합 실패"
  /\ fst (merge_cells (mk_tools (Some (Examples.raising Examples.boom)))
            3 3 1 1 Examples.fresh)
     = Ret "Error: boom".
Proof.
  destruct (merge_cells_forwards (Examples.answering true "") 3 3 1 1
              Examples.fresh) as (C & _ & T & _).
  destruct (merge_cells_forwards (Examples.answering false "") 3 3 1 1
              Examples.fresh) as (_ & _ & _ & F & _).
  destruct (merge_cells_forwards (Examples.raising Examples.boom) 3 3 1 1
              Examples.fresh) as (_ & _ & _ & _ & E).
  split; [exact (T eq_refl eq_refl eq_refl eq_refl eq_refl)|].
  split; [exact C|].
  split; [exact (F eq_refl)|]. exact (E Examples.boom eq_refl eq_refl).
Defined.

(** X4 at a host that answers "total", at one that raises, and at a row
    number of 4301 digits. *)
Lemma get_cell_text_calls_once_witness :
  new_calls Examples.fresh
    (snd (get_cell_text (mk_tools (Some (Examples.answering true "total")))
            2 3 Examples.fresh))
  = [(GetTableCellText 2 3, ReturnedStr "total")]
  /\ fst (get_cell_text (mk_tools (Some (Examples.answering true "total")))
            2 3 Examples.fresh)
     = Ret "total"
  /\ count_level ERROR
       (new_logs Examples.fresh
          (snd (get_cell_text
                  (mk_tools (Some (Examples.raising Examples.boom)))
                  2 3 Examples.fresh)))
     = 1%nat
  /\ count_level INFO
       (new_logs Examples.fresh
          (snd (get_cell_text
                  (mk_tools (Some (Examples.answering true "total")))
                  too_long 3 Examples.fresh)))
     = 0%nat.
Proof.
  destruct (get_cell_text_calls_once (Examples.answering true "total") 2 3
              Examples.fresh) as (C & _ & T & _).
  destruct (get_cell_text_calls_once (Examples.raising Examples.boom) 2 3
              Examples.fresh) as (_ & _ & _ & _ & E).
  destruct (get_cell_text_calls_once (Examples.answering true "total")
              too_long 3 Examples.fresh) as (_ & _ & _ & L & _).
  split; [exact C|].
  split; [exact (proj1 (T "total" eq_refl eq_refl eq_refl))|].
  split; [exact (proj2 (E Examples.boom eq_refl eq_refl))|].
  apply (L "total"); [reflexivity|]. left. vm_compute. reflexivity.
Defined.


(** X6 at a table with a header row. *)
Lemma fill_table_with_data_keeps_strings_witness :
  MoreExamples.people <> []
  /\ (exists reply,
        new_calls Examples.fresh
          (snd (fill_table_with_data Builtins.repr
                  (mk_tools (Some (Examples.answering true "")))
                  (Some (rows_of_strings MoreExamples.people)) 1 1 true
                  Examples.fresh))
        = [(FillTableWithData MoreExamples.people 1 1 true, reply)])
  /\ count_level WARNING
       (new_logs Examples.fresh
          (snd (fill_table_with_data Builtins.repr
                  (mk_tools (Some (Examples.answering true "")))
                  (Some (rows_of_strings MoreExamples.people)) 1 1 true
                  Examples.fresh)))
     = 0%nat.
Proof.
  assert (N : MoreExamples.people <> []) by discriminate.
  split; [exact N|].
  exact (fill_table_with_data_keeps_strings Builtins.repr
           (Examples.answering true "") MoreExamples.people 1 1 true
           Examples.fresh N eq_refl eq_refl).
Defined.



(** X9 at malformed data: the refusal comes first. *)
Lemma create_table_with_data_refused_witness :
  HwpController.insert_table (Examples.answering false "") 2 2
    (ctl_state Examples.fresh) = (Ret false, 1%nat)
  /\ create_table_with_data Json.loads Builtins.repr
       (mk_tools (Some (Examples.answering false ""))) 2 2 (Some "{bad")
       true Examples.fresh
     = (Ret "Error: Failed to create table",
        mk_world 1%nat [(InsertTable 2 2, ReturnedBool false)] []).
Proof.
  split; [reflexivity|].
  exact (create_table_with_data_refused Json.loads Builtins.repr
           (Examples.answering false "") 2 2 (Some "{bad") true
           Examples.fresh 1%nat eq_refl).
Defined.

(** X10 at the empty string. *)
Lemma create_table_with_data_without_data_witness :
  HwpController.insert_table (Examples.answering true "") 2 3
    (ctl_state Examples.fresh) = (Ret true, 1%nat)
  /\ create_table_with_data Json.loads Builtins.repr
       (mk_tools (Some (Examples.answering true ""))) 2 3 (Some EmptyString)
       false Examples.fresh
     = (Ret ("표 생성 완료 (" ++ str_int 2 ++ "x" ++ str_int 3 ++ " 크기)"),
        mk_world 1%nat [(InsertTable 2 3, ReturnedBool true)] []).
Proof.
  split; [reflexivity|].
  exact (proj2 (proj2
           (create_table_with_data_without_data Json.loads Builtins.repr
              (Examples.answering true "") 2 3 (Some EmptyString) false
              Examples.fresh 1%nat eq_refl (or_intror eq_refl)))
           eq_refl eq_refl).
Defined.

(** X11 at a two-by-two table asked for as one row and one column. *)
Lemma create_table_with_data_fills_from_first_cell_witness :
  Json.loads MoreExamples.people_doc
  = Ret (PList (rows_of_strings MoreExamples.people))
  /\ new_calls Examples.fresh
       (snd (create_table_with_data Json.loads Builtins.repr
               (mk_tools (Some (Examples.answering true ""))) 1 1
               (Some MoreExamples.people_doc) true Examples.fresh))
     = [(InsertTable 1 1, ReturnedBool true);
        (FillTableWithData MoreExamples.people 1 1 true, ReturnedBool true)]
  /\ fst (create_table_with_data Json.loads Builtins.repr
            (mk_tools (Some (Examples.answering true ""))) 1 1
            (Some MoreExamples.people_doc) true Examples.fresh)
     = Ret ("표 생성 및 데이터 입력 완료 (" ++ str_int 1 ++ "x" ++ str_int 1
              ++ " 크기)").
Proof.
  assert (J : Json.loads MoreExamples.people_doc
              = Ret (PList (rows_of_strings MoreExamples.people)))
    by (vm_compute; reflexivity).
  destruct (create_table_with_data_fills_from_first_cell Json.loads
              Builtins.repr (Examples.answering true "") 1 1
              MoreExamples.people_doc true Examples.fresh 1%nat
              (rows_of_strings MoreExamples.people))
    as (C & _ & _ & _ & T & _);
    [reflexivity | discriminate | exact J | discriminate | reflexivity |].
  split; [exact J|]. split; [exact C|].
  exact (T eq_refl eq_refl eq_refl).
Defined.

(** X12 at the same table. *)
Lemma entry_points_agree_witness :
  forallb has_no_None_cell (rows_of_strings MoreExamples.people) = true
  /\ exists t reply reply',
       fst (parse_table_data Json.loads Builtins.repr
              MoreExamples.people_doc Examples.fresh) = Ret t
       /\ new_calls Examples.fresh
            (snd (fill_table_with_data Builtins.repr
                    (mk_tools (Some (Examples.answering true "")))
                    (Some (rows_of_strings MoreExamples.people)) 1 1 true
                    Examples.fresh))
          = [(FillTableWithData t 1 1 true, reply)]
       /\ new_calls Examples.fresh
            (snd (create_table_with_data Json.loads Builtins.repr
                    (mk_tools (Some (Examples.answering true ""))) 2 2
                    (Some MoreExamples.people_doc) true Examples.fresh))
          = [(InsertTable 2 2, ReturnedBool true);
             (FillTableWithData t 1 1 true, reply')].
Proof.
  split; [reflexivity|].
  apply (entry_points_agree Json.loads Builtins.repr
           (Examples.answering true "") 2 2 MoreExamples.people_doc true
           Examples.fresh 1%nat (rows_of_strings MoreExamples.people));
    [ reflexivity | discriminate | vm_compute; reflexivity | discriminate
    | reflexivity | reflexivity ].
Defined.


(** X15 at a text that decodes to a list. *)
Lemma parse_table_data_leaves_controller_witness :
  Json.loads "[1]" = Ret (PList [PInt 1])
  /\ snd (parse_table_data Json.loads Builtins.repr "[1]" Examples.fresh)
     = Examples.fresh.
Proof.
  assert (J : Json.loads "[1]" = Ret (PList [PInt 1]))
    by (vm_compute; reflexivity).
  split; [exact J|].
  exact (proj2 (proj2 (proj2
           (parse_table_data_leaves_controller Json.loads Builtins.repr "[1]"
              Examples.fresh))) [PInt 1] J).
Defined.

(** X16 at a text nested deeper than the decoder's budget. *)
Lemma parse_table_data_lets_other_exceptions_through_witness :
  MoreExamples.loads_within 3 "[[[[1]]]]"
  = Raise (mk_exn OtherException
             "maximum recursion depth exceeded while decoding a JSON document")
  /\ parse_table_data (MoreExamples.loads_within 3) Builtins.repr "[[[[1]]]]"
       Examples.fresh
     = (Raise (mk_exn OtherException
                 "maximum recursion depth exceeded while decoding a JSON document"),
        Examples.fresh).
Proof.
  assert (J : MoreExamples.loads_within 3 "[[[[1]]]]"
              = Raise (mk_exn OtherException
                         "maximum recursion depth exceeded while decoding a JSON document"))
    by (vm_compute; reflexivity).
  split; [exact J|].
  exact (parse_table_data_lets_other_exceptions_through
           (MoreExamples.loads_within 3) Builtins.repr "[[[[1]]]]" _
           Examples.fresh J eq_refl).
Defined.

(** X17 at [set_cell_text] and at [fill_table_with_data] on a host that
    refuses. *)
Lemma refusal_is_logged_by_fill_only_witness :
  count_level ERROR
    (new_logs Examples.fresh
       (snd (call_method Json.loads Builtins.repr
               (mk_tools (Some (Examples.answering false "")))
               (Set_cell_text 1 1 "x") Examples.fresh)))
  = 0%nat
  /\ last_logged
       (new_logs Examples.fresh
          (snd (call_method Json.loads Builtins.repr
                  (mk_tools (Some (Examples.answering false "")))
                  (Fill_table_with_data (Some [PList [PStr "a"]]) 1 1 false)
                  Examples.fresh)))
     = Some (mk_log ERROR "hwp_controller.fill_table_with_data 호출 실패"
               false).
Proof.
  destruct (refusal_is_logged_by_fill_only Json.loads Builtins.repr
              (mk_tools (Some (Examples.answering false "")))
              (Set_cell_text 1 1 "x") Examples.fresh eq_refl eq_refl)
    as (S & _).
  destruct (refusal_is_logged_by_fill_only Json.loads Builtins.repr
              (mk_tools (Some (Examples.answering false "")))
              (Fill_table_with_data (Some [PList [PStr "a"]]) 1 1 false)
              Examples.fresh eq_refl eq_refl) as (_ & F).
  split; [exact (proj1 (S eq_refl))|]. exact (F eq_refl).
Defined.

(** X18 at an interrupt during [merge_tables]. *)
Lemma base_exception_escapes_witness :
  last_raised
    (new_calls Examples.fresh
       (snd (call_method Json.loads Builtins.repr
               (mk_tools (Some (Examples.raising MoreExamples.interrupt)))
               Merge_tables Examples.fresh)))
  = Some (RunAction "TableMergeTable", MoreExamples.interrupt)
  /\ fst (call_method Json.loads Builtins.repr
            (mk_tools (Some (Examples.raising MoreExamples.interrupt)))
            Merge_tables Examples.fresh)
     = Raise MoreExamples.interrupt.
Proof.
  split; [reflexivity|].
  exact (proj1 (base_exception_escapes Json.loads Builtins.repr
                  (mk_tools (Some (Examples.raising MoreExamples.interrupt)))
                  Merge_tables Examples.fresh (RunAction "TableMergeTable")
                  MoreExamples.interrupt eq_refl eq_refl)).
Defined.
